(** * A shallow embedding of the job-queue, import/export, data-serving,
      share-browsing and task-destruction paths of
      cvat/apps/engine/views.py *)

From Stdlib Require Import ZArith QArith Ascii String.
From stdpp Require Import base gmap strings list pretty.

Open Scope Z_scope.
Open Scope string_scope.

(** ** Python values kept in job metadata and response dictionaries *)

(** The values the views store in [rq_job.meta] or put in a response
    dictionary: strings, ints (file descriptors), floats (progress, modelled
    by rationals: the views only copy them), datetimes (modelled by their
    instant in seconds) and [None]. *)
Inductive pyval :=
| PNone
| PStr (s : string)
| PInt (z : Z)
| PFloat (q : Q)
| PTime (t : Z).

(** A Python dict with string keys, kept in insertion order. *)
Definition pydict := list (string * pyval).

Fixpoint dict_get (d : pydict) (k : string) : option pyval :=
  match d with
  | [] => None
  | (k', v) :: d' => if String.eqb k k' then Some v else dict_get d' k
  end.

(** Exceptions raised by the modelled code. *)
Inductive exn :=
| ValidationError (msg : string)   (* rest_framework: HTTP 400 *)
| NotFound (msg : string)          (* rest_framework: HTTP 404 *)
| TypeError                        (* uncaught: HTTP 500 *)
| ValueError                       (* uncaught: HTTP 500 *)
| KeyError (k : string)            (* uncaught: HTTP 500 *)
| OSError.                         (* uncaught: HTTP 500 *)

(** ** RQ jobs and the queue *)

Inductive rq_status :=
| Queued | Started | Deferred | Scheduled | Finished | Failed | Stopped | Canceled.

Record job := mkJob {
  job_status : rq_status;
  job_meta : gmap string pyval;
  job_exc_info : option string;     (* [job.exc_info], set by rq_handler *)
  job_return_value : pyval;         (* [job.return_value] *)
  job_func : string;
  job_args : list string;
  job_result_ttl : option Z;
  job_failure_ttl : option Z
}.

Definition is_finished (j : job) : bool :=
  match job_status j with Finished => true | _ => false end.
Definition is_failed (j : job) : bool :=
  match job_status j with Failed => true | _ => false end.
Definition is_queued (j : job) : bool :=
  match job_status j with Queued => true | _ => false end.

(** The "default" queue: job id to job.  [queue.fetch_job(id)] is a lookup,
    [rq_job.delete()] a deletion. *)
Abbreviation queue := (gmap string job).

Definition fetch_job (q : queue) (id : string) : option job := q !! id.

(** [queue.enqueue_call(func, args, job_id, meta, result_ttl, failure_ttl)]:
    a fresh queued job stored under [job_id] (replacing any job there). *)
Definition enqueue_call (q : queue) (func : string) (args : list string)
    (job_id : string) (meta : gmap string pyval)
    (result_ttl failure_ttl : option Z) : queue :=
  <[job_id := mkJob Queued meta None PNone func args result_ttl failure_ttl]> q.

(** [rq_job.cancel()]: the job leaves the queue's registries as canceled. *)
Definition cancel_job (q : queue) (id : string) : queue :=
  match q !! id with
  | Some j => <[id := mkJob Canceled (job_meta j) (job_exc_info j)
                   (job_return_value j) (job_func j) (job_args j)
                   (job_result_ttl j) (job_failure_ttl j)]> q
  | None => q
  end.

Definition exc_info_val (j : job) : pyval :=
  match job_exc_info j with Some s => PStr s | None => PNone end.

(** [str(rq_job.exc_info)] *)
Definition str_exc_info (j : job) : string :=
  match job_exc_info j with Some s => s | None => "None" end.

Definition meta_get (j : job) (k : string) (dflt : pyval) : pyval :=
  match job_meta j !! k with Some v => v | None => dflt end.

(** ** [_get_rq_response] *)

(** [ProjectViewSet._get_rq_response] *)
Definition project_get_rq_response (q : queue) (job_id : string) : pydict :=
  match fetch_job q job_id with
  | None => [("state", PStr "Finished")]
  | Some j =>
      if is_finished j then [("state", PStr "Finished")]
      else if is_queued j then [("state", PStr "Queued")]
      else if is_failed j then [("state", PStr "Failed"); ("message", exc_info_val j)]
      else [("state", PStr "Started");
            ("message", meta_get j "status" (PStr ""));
            ("progress", meta_get j "progress" (PFloat 0))]
  end.

(** [TaskViewSet._get_rq_response] *)
Definition task_get_rq_response (q : queue) (job_id : string) : pydict :=
  match fetch_job q job_id with
  | None => [("state", PStr "Finished")]
  | Some j =>
      if is_finished j then [("state", PStr "Finished")]
      else if is_queued j then [("state", PStr "Queued")]
      else if is_failed j then [("state", PStr "Failed"); ("message", exc_info_val j)]
      else ([("state", PStr "Started")]
           ++ (match job_meta j !! "status" with
               | Some v => [("message", v)]
               | None => []
               end)
           ++ [("progress", meta_get j "task_progress" (PFloat 0))])%list
  end.

(** ** String helpers (Python [str] methods used by the views) *)

(** [s.startswith(pre)] *)
Definition startswith (s pre : string) : bool := String.prefix pre s.

Fixpoint replace_fuel (fuel : nat) (old new s : string) : string :=
  match fuel with
  | O => s
  | S fuel' =>
      match s with
      | EmptyString => EmptyString
      | String c s' =>
          if String.prefix old s
          then new ++ replace_fuel fuel'
                 old new (String.substring (String.length old)
                            (String.length s - String.length old) s)
          else String c (replace_fuel fuel' old new s')
      end
  end.

(** [s.replace(old, new)] for a non-empty [old]: every non-overlapping
    occurrence, scanning left to right. *)
Definition str_replace (s old new : string) : string :=
  replace_fuel (String.length s) old new s.

Definition ascii_lower (c : ascii) : ascii :=
  let n := Ascii.nat_of_ascii c in
  if (65 <=? n)%nat && (n <=? 90)%nat then Ascii.ascii_of_nat (n + 32) else c.

(** [s.lower()] on ASCII text. *)
Fixpoint str_lower (s : string) : string :=
  match s with
  | EmptyString => EmptyString
  | String c s' => String (ascii_lower c) (str_lower s')
  end.

(** ** The world a request sees: the queue, the file system, open file
    descriptors, and the counter [mkstemp] draws fresh names from. *)

Record world := mkWorld {
  w_queue : queue;
  w_files : gset string;
  w_fds : gset Z;
  w_next : Z
}.

Definition set_queue (w : world) (q : queue) : world :=
  mkWorld q (w_files w) (w_fds w) (w_next w).

(** [rq_job.delete()] *)
Definition delete_job (w : world) (id : string) : world :=
  set_queue w (delete id (w_queue w)).

(** [mkstemp(prefix=p)]: a new open file and its descriptor. *)
Definition mkstemp (p : string) (w : world) : Z * string * world :=
  let fd := w_next w in
  let name := "/tmp/" ++ p ++ "_" ++ pretty (Z.to_N fd) in
  (fd, name, mkWorld (w_queue w) ({[name]} ∪ w_files w) ({[fd]} ∪ w_fds w) (w_next w + 1)).

(** [os.close(v)] *)
Definition os_close (v : pyval) (w : world) : option exn * world :=
  match v with
  | PInt fd =>
      if bool_decide (fd ∈ w_fds w)
      then (None, mkWorld (w_queue w) (w_files w) (w_fds w ∖ {[fd]}) (w_next w))
      else (Some OSError, w)
  | _ => (Some TypeError, w)
  end.

(** [os.remove(v)] *)
Definition os_remove (v : pyval) (w : world) : option exn * world :=
  match v with
  | PStr f =>
      if bool_decide (f ∈ w_files w)
      then (None, mkWorld (w_queue w) (w_files w ∖ {[f]}) (w_fds w) (w_next w))
      else (Some OSError, w)
  | _ => (Some TypeError, w)
  end.

(** [os.close(rq_job.meta['tmp_file_descriptor'])] followed by
    [os.remove(rq_job.meta['tmp_file'])]. *)
Definition cleanup_tmp (j : job) (w : world) : option exn * world :=
  match job_meta j !! "tmp_file_descriptor" with
  | None => (Some (KeyError "tmp_file_descriptor"), w)
  | Some fdv =>
      match os_close fdv w with
      | (Some e, w1) => (Some e, w1)
      | (None, w1) =>
          match job_meta j !! "tmp_file" with
          | None => (Some (KeyError "tmp_file"), w1)
          | Some fv => os_remove fv w1
          end
      end
  end.

(** ** Responses *)

Inductive body :=
| BNone
| BStr (s : string)
| BDict (d : pydict).

Inductive response :=
| Resp (code : Z) (b : body)
| SendFile (path : string) (attachment_filename : string)
| Raise (e : exn).

(** An uploaded request as the views read it. *)
Record request := mkRequest {
  req_scheme : string;
  req_host : option string;   (* [request.get_host()], [None] when it raises *)
  req_now : Z;                (* [timezone.localtime()] *)
  req_file : option string    (* the uploaded annotation or dataset file *)
}.

(** An export/import format plugin as listed by [dm.views]. *)
Record format_desc := mkFormat {
  DISPLAY_NAME : string;
  ENABLED : bool
}.

(** [{f.DISPLAY_NAME: f for f in formats}.get(name)]: the last format
    with that display name wins. *)
Definition lookup_format (fmts : list format_desc) (name : string) : option format_desc :=
  fold_left (fun acc f => if String.eqb (DISPLAY_NAME f) name then Some f else acc)
    fmts None.

(** The exported resource ([db_instance]). *)
Record db_instance := mkInstance {
  inst_is_project : bool;
  inst_id : string;
  inst_name : string;
  inst_updated : Z;              (* [updated_date] *)
  inst_task_updates : list Z     (* [updated_date] of the project's tasks *)
}.

(** [last_instance_update_time] *)
Definition last_update (inst : db_instance) : Z :=
  if inst_is_project inst
  then fold_right Z.max (inst_updated inst) (inst_task_updates inst)
  else inst_updated inst.

(** [request_time is None or request_time < last_instance_update_time] *)
Definition job_is_stale (j : job) (last : Z) : exn + bool :=
  match job_meta j !! "request_time" with
  | None | Some PNone => inr true
  | Some (PTime t) => inr (t <? last)%Z
  | Some _ => inl TypeError
  end.

(** The [server_address] computed by [_export_annotations]; an exception
    (no scheme, bad host) leaves [None]. *)
Definition server_address (req : request) : string :=
  if String.eqb (req_scheme req) "" then "None"
  else match req_host req with
       | Some h => req_scheme req ++ "://" ++ h
       | None => "None"
       end.

Fixpoint has_slash (s : string) : bool :=
  match s with
  | EmptyString => false
  | String c s' => Ascii.eqb c "/"%char || has_slash s'
  end.

(** [os.path.basename(p)] *)
Fixpoint basename (s : string) : string :=
  match s with
  | EmptyString => EmptyString
  | String c s' =>
      if has_slash s' then basename s'
      else if Ascii.eqb c "/"%char then s' else s
  end.

Fixpoint ext_aux (seen_nondot : bool) (s : string) : string :=
  match s with
  | EmptyString => EmptyString
  | String c s' =>
      let is_dot := Ascii.eqb c "."%char in
      let r := ext_aux (seen_nondot || negb is_dot) s' in
      if negb (String.eqb r "") then r
      else if is_dot && seen_nondot then s else ""
  end.

(** [os.path.splitext(p)[1]] *)
Definition splitext_ext (p : string) : string := ext_aux false (basename p).

Section Views.

(** Configuration and collaborators outside views.py: the cache lifetimes
    [dm.views.PROJECT_CACHE_TTL] and [dm.views.TASK_CACHE_TTL] (in seconds),
    the registered formats of [dm.views.get_export_formats] and
    [dm.views.get_import_formats], the verdict of [av_scan_paths]
    ([true]: clean) and [datetime.strftime(_, "%Y_%m_%d_%H_%M_%S")]. *)
Variables (PROJECT_CACHE_TTL TASK_CACHE_TTL : Z).
Variables (export_formats import_formats : list format_desc).
Variable av_clean : string -> bool.
Variable strftime_ts : Z -> string.

Definition export_ttl (inst : db_instance) : Z :=
  if inst_is_project inst then PROJECT_CACHE_TTL else TASK_CACHE_TTL.

(** The tail of [_export_annotations]: enqueue a fresh export job. *)
Definition export_enqueue (inst : db_instance) (rq_id : string) (req : request)
    (format_name callback : string) (w : world) : response * world :=
  let ttl := export_ttl inst in
  (Resp 202 BNone,
   set_queue w (enqueue_call (w_queue w) callback
                  [inst_id inst; format_name; server_address req] rq_id
                  {[ "request_time" := PTime (req_now req) ]}
                  (Some ttl) (Some ttl))).

Definition export_default_filename (inst : db_instance) (last : Z)
    (format_name file_path : string) : string :=
  (if inst_is_project inst then "project" else "task") ++ "_" ++ inst_name inst
  ++ "-" ++ strftime_ts last ++ "-" ++ format_name ++ splitext_ext file_path.

(** [_export_annotations] *)
Definition export_annotations (inst : db_instance) (rq_id : string) (req : request)
    (format_name action callback filename : string) (w : world) : response * world :=
  if negb (String.eqb action "" || String.eqb action "download") then
    (Raise (ValidationError "Unexpected action specified for the request"), w)
  else
  match lookup_format export_formats format_name with
  | None => (Raise (ValidationError "Unknown format specified for the request"), w)
  | Some fd =>
    if negb (ENABLED fd) then (Resp 405 BNone, w) else
    match fetch_job (w_queue w) rq_id with
    | None => export_enqueue inst rq_id req format_name callback w
    | Some j =>
      let last := last_update inst in
      match job_is_stale j last with
      | inl e => (Raise e, w)
      | inr true =>
          export_enqueue inst rq_id req format_name callback
            (set_queue w (delete rq_id (cancel_job (w_queue w) rq_id)))
      | inr false =>
          if is_finished j then
            match job_return_value j with
            | PStr file_path =>
                let exists_ := bool_decide (file_path ∈ w_files w) in
                if String.eqb action "download" && exists_ then
                  let name := if String.eqb filename "" then
                                export_default_filename inst last format_name file_path
                              else filename in
                  (SendFile file_path (str_lower name), delete_job w rq_id)
                else if exists_ then (Resp 201 BNone, w)
                else export_enqueue inst rq_id req format_name callback w
            | _ => (Raise TypeError, w)
            end
          else if is_failed j then
            (Resp 500 (BStr (str_exc_info j)), delete_job w rq_id)
          else (Resp 202 BNone, w)
      end
    end
  end.

(** ["{}.{}".format(CvatImportError.__module__, CvatImportError.__name__)] *)
Definition import_error_prefix : string :=
  "cvat.apps.dataset_manager.bindings.CvatImportError".

(** [_import_annotations] *)
Definition import_annotations (req : request) (rq_id rq_func pk format_name : string)
    (w : world) : response * world :=
  match lookup_format import_formats format_name with
  | None => (Raise (ValidationError ("Unknown input format '" ++ format_name ++ "'")), w)
  | Some fd =>
    if negb (ENABLED fd) then (Resp 405 BNone, w) else
    match fetch_job (w_queue w) rq_id with
    | None =>
        match req_file req with
        | None => (Raise (ValidationError "annotation_file: This field is required."), w)
        | Some _ =>
            let '(tfd, filename, w1) := mkstemp ("cvat_" ++ pk) w in
            if negb (av_clean filename) then
              (Raise (ValidationError "Uploaded file is infected"), w1)
            else
              (Resp 202 BNone,
               set_queue w1 (enqueue_call (w_queue w1) rq_func [pk; filename; format_name]
                  rq_id {[ "tmp_file" := PStr filename;
                           "tmp_file_descriptor" := PInt tfd ]} None None))
        end
    | Some j =>
        if is_finished j then
          match cleanup_tmp j w with
          | (Some e, w1) => (Raise e, w1)
          | (None, w1) => (Resp 201 BNone, delete_job w1 rq_id)
          end
        else if is_failed j then
          match cleanup_tmp j w with
          | (Some e, w1) => (Raise e, w1)
          | (None, w1) =>
              let exc_info := str_exc_info j in
              let w2 := delete_job w1 rq_id in
              if startswith exc_info import_error_prefix then
                (Resp 400 (BStr (str_replace exc_info (import_error_prefix ++ ": ") "")), w2)
              else (Resp 500 (BStr exc_info), w2)
          end
        else (Resp 202 BNone, w)
    end
  end.

(** [_import_project_dataset] *)
Definition import_project_dataset (req : request) (rq_id rq_func pk format_name : string)
    (w : world) : response * world :=
  match lookup_format import_formats format_name with
  | None => (Raise (ValidationError ("Unknown input format '" ++ format_name ++ "'")), w)
  | Some fd =>
    if negb (ENABLED fd) then (Resp 405 BNone, w) else
    match fetch_job (w_queue w) rq_id with
    | None =>
        match req_file req with
        | None => (Raise (ValidationError "dataset_file: This field is required."), w)
        | Some _ =>
            let '(tfd, filename, w1) := mkstemp ("cvat_" ++ pk) w in
            (Resp 202 BNone,
             set_queue w1 (enqueue_call (w_queue w1) rq_func [pk; filename; format_name]
                rq_id {[ "tmp_file" := PStr filename;
                         "tmp_file_descriptor" := PInt tfd ]} None None))
        end
    | Some _ => (Resp 409 (BStr "Import job already exists"), w)
    end
  end.

(** The id of a project's dataset import job. *)
Definition project_import_rq_id (pk : string) : string :=
  "/api/project/" ++ pk ++ "/dataset_import".

(** The [action=import_status] branch of [ProjectViewSet.dataset] (GET). *)
Definition project_import_status (pk : string) (w : world) : response * world :=
  let id := project_import_rq_id pk in
  match fetch_job (w_queue w) id with
  | None => (Resp 404 BNone, w)
  | Some j =>
      if is_finished j then
        match cleanup_tmp j w with
        | (Some e, w1) => (Raise e, w1)
        | (None, w1) => (Resp 201 BNone, delete_job w1 id)
        end
      else if is_failed j then
        match cleanup_tmp j w with
        | (Some e, w1) => (Raise e, w1)
        | (None, w1) => (Resp 500 (BStr (str_exc_info j)), delete_job w1 id)
        end
      else (Resp 202 (BDict (project_get_rq_response (w_queue w) id)), w)
  end.

(** [ProjectViewSet.dataset]: [query] holds the query parameters. *)
Definition project_dataset (method : string) (query : gmap string string)
    (inst : db_instance) (pk : string) (req : request) (w : world) : response * world :=
  let qget k d := match query !! k with Some v => v | None => d end in
  if String.eqb method "POST" then
    import_project_dataset req (project_import_rq_id pk)
      "dm.project.import_dataset_as_project" pk (qget "format" "") w
  else
    let action := str_lower (qget "action" "") in
    if String.eqb action "import_status" then project_import_status pk w
    else
      let format_name := qget "format" "" in
      export_annotations inst ("/api/project/" ++ pk ++ "/dataset/" ++ format_name) req
        format_name action "dm.views.export_project_as_dataset"
        (str_lower (qget "filename" "")) w.

End Views.

(** ** Job identifiers built by the views *)

(** Every place in views.py that builds the id handed to [fetch_job] or
    [enqueue_call], with the request values it formats in. *)
Inductive rq_site :=
| ProjectDatasetImport (pk : string)          (* ProjectViewSet.dataset, POST and import_status *)
| ProjectDatasetExport (pk format_name : string)   (* ProjectViewSet.dataset, GET *)
| ProjectAnnotations (pk format_name : string)     (* ProjectViewSet.annotations *)
| TaskAnnotationsExport (pk format_name : string)  (* TaskViewSet.annotations, GET *)
| TaskAnnotationsUpload (user pk : string)         (* TaskViewSet.annotations, PUT *)
| TaskStatus (pk : string)                         (* TaskViewSet.status *)
| TaskDatasetExport (pk format_name : string)      (* TaskViewSet.dataset_export *)
| JobAnnotationsUpload (user pk : string).         (* JobViewSet.annotations, PUT *)

Definition rq_id_of (s : rq_site) : string :=
  match s with
  | ProjectDatasetImport pk => "/api/project/" ++ pk ++ "/dataset_import"
  | ProjectDatasetExport pk f => "/api/project/" ++ pk ++ "/dataset/" ++ f
  | ProjectAnnotations pk f => "/api/projects/" ++ pk ++ "/annotations/" ++ f
  | TaskAnnotationsExport pk f => "/api/tasks/" ++ pk ++ "/annotations/" ++ f
  | TaskAnnotationsUpload u pk => u ++ "@/api/tasks/" ++ pk ++ "/annotations/upload"
  | TaskStatus pk => "/api/tasks/" ++ pk
  | TaskDatasetExport pk f => "/api/tasks/" ++ pk ++ "/dataset/" ++ f
  | JobAnnotationsUpload u pk => u ++ "@/api/jobs/" ++ pk ++ "/annotations/upload"
  end.

Definition site_pk (s : rq_site) : string :=
  match s with
  | ProjectDatasetImport pk | ProjectDatasetExport pk _ | ProjectAnnotations pk _
  | TaskAnnotationsExport pk _ | TaskAnnotationsUpload _ pk | TaskStatus pk
  | TaskDatasetExport pk _ | JobAnnotationsUpload _ pk => pk
  end.

(** ** [ServerViewSet.share] *)

(** [s.split('/')] *)
Fixpoint split_slash (s : string) : list string :=
  match s with
  | EmptyString => [""]
  | String c s' =>
      let r := split_slash s' in
      if Ascii.eqb c "/"%char then "" :: r
      else match r with
           | h :: t => String c h :: t
           | [] => [String c ""]
           end
  end.

(** ['/'.join(l)] *)
Fixpoint join_slash (l : list string) : string :=
  match l with
  | [] => ""
  | [x] => x
  | x :: t => x ++ "/" ++ join_slash t
  end.

Fixpoint slashes (n : nat) : string :=
  match n with O => "" | S n' => "/" ++ slashes n' end.

(** One step of the component loop of [posixpath.normpath]; [acc] holds
    [new_comps] reversed, so its head is [new_comps[-1]]. *)
Definition normpath_step (initial_slashes : nat) (acc : list string) (comp : string)
    : list string :=
  if String.eqb comp "" || String.eqb comp "." then acc
  else if negb (String.eqb comp "..")
          || (Nat.eqb initial_slashes 0 && match acc with [] => true | _ => false end)
          || match acc with c :: _ => String.eqb c ".." | [] => false end
  then comp :: acc
  else match acc with [] => [] | _ :: t => t end.

(** [posixpath.normpath] *)
Definition normpath (path : string) : string :=
  if String.eqb path "" then "." else
  let initial_slashes :=
    if startswith path "/" then
      if startswith path "//" && negb (startswith path "///") then 2%nat else 1%nat
    else 0%nat in
  let comps := rev (fold_left (normpath_step initial_slashes) (split_slash path) []) in
  let p := slashes initial_slashes ++ join_slash comps in
  if String.eqb p "" then "." else p.

Definition endswith_slash (s : string) : bool :=
  match String.get (String.length s - 1) s with
  | Some c => Ascii.eqb c "/"%char
  | None => false
  end.

(** [posixpath.join(a, b)] *)
Definition path_join (a b : string) : string :=
  if startswith b "/" then b
  else if String.eqb a "" || endswith_slash a then a ++ b
  else a ++ "/" ++ b.

(** [posixpath.abspath(p)] with working directory [cwd] *)
Definition abspath (cwd p : string) : string :=
  normpath (if startswith p "/" then p else path_join cwd p).

Inductive entry_kind := KFile | KDir | KOther.

(** *** [FileInfoSerializer] and the rest_framework fields it uses *)

(** Python's [str.isspace] on the characters a [string] holds (code points
    0 to 255): tab to carriage return, the separators 0x1c to 0x1f, space,
    NEL (0x85) and NO-BREAK SPACE (0xa0). *)
Definition py_isspace (c : ascii) : bool :=
  let n := nat_of_ascii c in
  (Nat.leb 9 n && Nat.leb n 13) || (Nat.leb 28 n && Nat.leb n 32)
  || Nat.eqb n 133 || Nat.eqb n 160.

Fixpoint drop_space (l : list ascii) : list ascii :=
  match l with
  | c :: l' => if py_isspace c then drop_space l' else l
  | [] => []
  end.

(** [s.strip()] *)
Definition py_strip (s : string) : string :=
  string_of_list_ascii (rev (drop_space (rev (drop_space (list_ascii_of_string s))))).

(** [CharField(max_length=1024).run_validation(data)] with the defaults
    [allow_blank=False] and [trim_whitespace=True]: the blank check on the
    raw value, [to_internal_value] (which strips it), then every validator
    on the stripped value, collecting their messages:
    [MaxLengthValidator(1024)], [ProhibitNullCharactersValidator] and
    [ProhibitSurrogateCharactersValidator] (the last finds nothing in a
    [string], whose characters are all below U+0100).  [inl]: the field's
    error messages; [inr]: the validated value. *)
Definition charfield_1024 (data : string) : list string + string :=
  if String.eqb data "" || String.eqb (py_strip data) "" then
    inl ["This field may not be blank."]
  else
    let value := py_strip data in
    let errors :=
      app (if Nat.ltb 1024 (String.length value)
           then ["Ensure this field has no more than 1024 characters."] else [])
          (if existsb (fun c => Ascii.eqb c "000"%char) (list_ascii_of_string value)
           then ["Null characters are not allowed."] else []) in
    match errors with [] => inr value | _ => inl errors end.

Definition double_quote : string := String "034"%char EmptyString.

(** [ChoiceField(choices=["REG", "DIR"]).run_validation(data)] *)
Definition choicefield_reg_dir (data : string) : list string + string :=
  if existsb (String.eqb data) ["REG"; "DIR"] then inr data
  else inl [double_quote ++ data ++ double_quote ++ " is not a valid choice."].

(** [FileInfoSerializer] (engine/serializers.py: [name = CharField(max_length=1024)],
    [type = ChoiceField(choices=["REG", "DIR"])]) validating one item: the
    errors by field, or the validated item. *)
Definition file_info_validate (item : string * string)
    : list (string * list string) + (string * string) :=
  let '(name, type) := item in
  match charfield_1024 name, choicefield_reg_dir type with
  | inr n, inr t => inr (n, t)
  | rn, rt =>
      inl (app (match rn with inl e => [("name", e)] | inr _ => [] end)
               (match rt with inl e => [("type", e)] | inr _ => [] end))
  end.

(** [FileInfoSerializer(many=True, data=data).is_valid(raise_exception=True)]
    and then [serializer.data]: the [ListSerializer] validates every item
    and, when one fails, raises [ValidationError] with one error dict per
    item ([[]] for a valid one); otherwise [serializer.data] renders the
    validated items, which [CharField.to_representation] ([str]) and
    [ChoiceField.to_representation] leave as they are. *)
Definition file_info_list_validate (data : list (string * string))
    : list (list (string * list string)) + list (string * string) :=
  let rs := map file_info_validate data in
  if forallb (fun r => match r with inr _ => true | inl _ => false end) rs
  then inr (flat_map (fun r => match r with inr v => [v] | inl _ => [] end) rs)
  else inl (map (fun r => match r with inl e => e | inr _ => [] end) rs).

Inductive share_response :=
| ShareListed (directory : string) (data : list (string * string))
| ShareBadRequest (msg : string)
| ShareInvalid (errors : list (list (string * list string))).  (* ValidationError: HTTP 400 *)

(** [param] after the leading slash is dropped. *)
Definition share_param (directory_param : option string) : string :=
  let param0 := match directory_param with Some p => p | None => "/" end in
  if startswith param0 "/"
  then String.substring 1 (String.length param0 - 1) param0
  else param0.

(** [os.path.abspath(os.path.join(settings.SHARE_ROOT, param))] *)
Definition share_directory (SHARE_ROOT cwd : string) (directory_param : option string)
    : string :=
  abspath cwd (path_join SHARE_ROOT (share_param directory_param)).

(** The loop over [os.scandir(directory)]: regular files and directories,
    in order. *)
Definition share_entries (content : list (string * entry_kind)) : list (string * string) :=
  flat_map (fun '(name, k) =>
              match k with
              | KFile => [(name, "REG")]
              | KDir => [(name, "DIR")]
              | KOther => []
              end) content.

(** [ServerViewSet.share]: [directory_param] is the [directory] query
    parameter, [isdir] and [scandir] the file system below. *)
Definition share (SHARE_ROOT cwd : string) (isdir : string -> bool)
    (scandir : string -> list (string * entry_kind))
    (directory_param : option string) : share_response :=
  let param := share_param directory_param in
  let directory := abspath cwd (path_join SHARE_ROOT param) in
  if startswith directory SHARE_ROOT && isdir directory then
    match file_info_list_validate (share_entries (scandir directory)) with
    | inr data => ShareListed directory data
    | inl errors => ShareInvalid errors
    end
  else ShareBadRequest (param ++ " is an invalid directory").

(** A path lies in the tree rooted at [root]. *)
Definition path_under (root p : string) : bool :=
  String.eqb p root || startswith p (root ++ "/").

(** ** [DataChunkGetter] *)

Inductive quality := COMPRESSED | ORIGINAL.

Record chunk_getter := mkGetter {
  cg_type : string;
  cg_number : option Z;     (* [None] is Python's [None] *)
  cg_quality : quality;
  cg_dimension : string
}.

(** Python truthiness of an optional string query parameter. *)
Definition truthy (o : option string) : bool :=
  match o with Some s => negb (String.eqb s "") | None => false end.

Definition str_in (s : string) (l : list string) : bool :=
  existsb (String.eqb s) l.

Section DataChunkGetter.

(** Python's [int(s)] on a string ([None]: it raises [ValueError]), and
    [FrameProvider.get_chunk_number] of frame_provider.py. *)
Variable py_int : string -> option Z.
Variable get_chunk_number : Z -> Z.
(** [Image.objects.get(data_id=..., frame=n).related_files]: [None] when the
    image does not exist. *)
Variable related_files : Z -> option (list string).

(** [DataChunkGetter.__init__] *)
Definition chunk_getter_init (data_type data_num : option string)
    (data_quality task_dim : string) : exn + chunk_getter :=
  let possible_data_type_values := ["chunk"; "frame"; "preview"; "context_image"] in
  let possible_quality_values := ["compressed"; "original"] in
  match data_type with
  | Some t =>
    if negb (truthy data_type) || negb (str_in t possible_data_type_values) then
      inl (ValidationError "Data type not specified or has wrong value")
    else if (String.eqb t "chunk" || String.eqb t "frame")
            && negb (truthy data_num) then
      inl (ValidationError "Number is not specified")
    else if (String.eqb t "chunk" || String.eqb t "frame")
            && negb (str_in data_quality possible_quality_values) then
      inl (ValidationError "Wrong quality value")
    else
      let q := if String.eqb data_quality "compressed" then COMPRESSED else ORIGINAL in
      match data_num with
      | Some s =>
          if truthy data_num then
            match py_int s with
            | Some n => inr (mkGetter t (Some n) q task_dim)
            | None => inl ValueError
            end
          else inr (mkGetter t None q task_dim)
      | None => inr (mkGetter t None q task_dim)
      end
  | None => inl (ValidationError "Data type not specified or has wrong value")
  end.

(** What a call serves. *)
Inductive served :=
| ServeChunk (n : Z) (q : quality)
| ServeFrame (n : Z) (q : quality)
| ServePreview
| ServeContextImage (n : Z) (path : string)
| ServeResp (code : Z) (msg : string).

(** Python's chained [a <= n <= b] with [n] possibly [None]. *)
Definition py_between (a : Z) (n : option Z) (b : Z) : exn + bool :=
  match n with
  | None => inl TypeError
  | Some n => inr ((a <=? n) && (n <=? b))%Z
  end.

(** [DataChunkGetter.__call__]; [has_data] is the truthiness of [db_data]. *)
Definition chunk_getter_call (g : chunk_getter) (start stop : Z) (has_data : bool)
    : exn + served :=
  if negb has_data then inl (NotFound "Cannot find requested data") else
  let t := cg_type g in
  if String.eqb t "chunk" then
    let start_chunk := get_chunk_number start in
    let stop_chunk := get_chunk_number stop in
    match py_between start_chunk (cg_number g) stop_chunk with
    | inl e => inl e
    | inr false => inl (ValidationError "The chunk number should be in range")
    | inr true =>
        match cg_number g with
        | Some n => inr (ServeChunk n (cg_quality g))
        | None => inl TypeError
        end
    end
  else if String.eqb t "frame" then
    match py_between start (cg_number g) stop with
    | inl e => inl e
    | inr false => inl (ValidationError "The frame number should be in range")
    | inr true =>
        match cg_number g with
        | Some n => inr (ServeFrame n (cg_quality g))
        | None => inl TypeError
        end
    end
  else if String.eqb t "preview" then inr ServePreview
  else if String.eqb t "context_image" then
    match py_between start (cg_number g) stop with
    | inl e => inl e
    | inr false => inl (ValidationError "The frame number should be in range")
    | inr true =>
        match cg_number g with
        | Some n =>
            match related_files n with
            | None => inl (KeyError "Image.DoesNotExist")
            | Some (p :: _) => inr (ServeContextImage n p)
            | Some [] => inr (ServeResp 404 "No context image related to the frame")
            end
        | None => inl TypeError
        end
    end
  else inr (ServeResp 400 ("unknown data type " ++ t ++ ".")).

End DataChunkGetter.

(** ** [TaskViewSet.perform_destroy] *)

Record task_row := mkTaskRow {
  t_data : option Z;       (* [task.data_id] *)
  t_project : option Z     (* [task.project_id] *)
}.

Record db := mkDb {
  db_tasks : gmap Z task_row;
  db_datas : gset Z;
  db_project_updated : gmap Z Z;   (* [project.updated_date] *)
  db_fs : gset string              (* every path present on disk *)
}.

(** [shutil.rmtree(d, ignore_errors=True)] *)
Definition rmtree (d : string) (fs : gset string) : gset string :=
  filter (fun p => path_under d p = false) fs.

Section Destroy.

(** [Task.get_task_dirname] and [Data.get_data_dirname] of models.py. *)
Variables task_dirname data_dirname : Z -> string.

(** [instance.data.tasks.all()] is non-empty. *)
Definition data_referenced (tasks : gmap Z task_row) (d : Z) : bool :=
  negb (bool_decide (filter (fun kv => t_data kv.2 = Some d) tasks = ∅)).

(** [perform_destroy] of task [t] with row [row] at time [now]. *)
Definition perform_destroy (t : Z) (row : task_row) (now : Z) (s : db) : db :=
  let tasks1 := delete t (db_tasks s) in
  let fs1 := rmtree (task_dirname t) (db_fs s) in
  let '(datas2, fs2) :=
    match t_data row with
    | Some d =>
        if negb (data_referenced tasks1 d)
        then (db_datas s ∖ {[d]}, rmtree (data_dirname d) fs1)
        else (db_datas s, fs1)
    | None => (db_datas s, fs1)
    end in
  let projects := match t_project row with
                  | Some p => <[p := now]> (db_project_updated s)
                  | None => db_project_updated s
                  end in
  mkDb tasks1 datas2 projects fs2.

End Destroy.


(** The state name a polled job is reported under. *)
Definition relayed_state (j : job) : string :=
  match job_status j with
  | Finished => "Finished"
  | Queued => "Queued"
  | Failed => "Failed"
  | _ => "Started"
  end.

(** The temporary upload an import job records in its metadata is still on
    disk and its descriptor still open: [_import_annotations] and
    [_import_project_dataset] create both right before enqueueing, and only
    the polling branches that delete the job close and remove them. *)
Definition import_tmp_ok (w : world) (id : string) : Prop :=
  forall j, w_queue w !! id = Some j ->
  exists f fd, job_meta j !! "tmp_file" = Some (PStr f) /\
    job_meta j !! "tmp_file_descriptor" = Some (PInt fd) /\
    f ∈ w_files w /\ fd ∈ w_fds w.




(** ** Concrete inputs *)

Definition ex_request : request := mkRequest "http" (Some "localhost:8080") 100 (Some "payload").
Definition ex_project : db_instance := mkInstance true "1" "proj" 50 [60; 70].
Definition ex_task : db_instance := mkInstance false "7" "task" 80 [].
Definition ex_formats : list format_desc :=
  [mkFormat "CVAT 1.1" true; mkFormat "Disabled 1.0" false].

Definition ex_import_meta : gmap string pyval :=
  {[ "tmp_file" := PStr "/tmp/cvat_1_0"; "tmp_file_descriptor" := PInt 0 ]}.
Definition ex_import_job (st : rq_status) (exc : option string) : job :=
  mkJob st ex_import_meta exc PNone "dm.project.import_dataset_as_project"
    ["1"; "/tmp/cvat_1_0"; "CVAT 1.1"] None None.
(** A world holding one import job with status [st] under [id]. *)
Definition ex_import_world (id : string) (st : rq_status) (exc : option string) : world :=
  mkWorld {[ id := ex_import_job st exc ]} {[ "/tmp/cvat_1_0" ]} {[ 0 ]} 1.


(** ** [rq_handler] and the RQ worker *)

(** What [rq_handler] returns: [True], or whatever [task.rq_handler]
    (task.py), to which it hands the job, returns. *)
Inductive handler_result := HandlerTrue | HandlerDelegated.

Definition with_exc_info (j : job) (s : string) : job :=
  mkJob (job_status j) (job_meta j) (Some s) (job_return_value j) (job_func j)
    (job_args j) (job_result_ttl j) (job_failure_ttl j).

(** [rq_handler(job, exc_type, exc_value, tb)] for the job stored under
    [job_id]: [formatted] is [traceback.format_exception_only(exc_type,
    exc_value)], and [job.save()] stores the job back in the queue. *)
Definition rq_handler (job_id : string) (j : job) (formatted : list string) (q : queue)
    : handler_result * queue :=
  let q' := <[job_id := with_exc_info j (String.concat "" formatted)]> q in
  if str_in "tasks" (split_slash job_id) then (HandlerDelegated, q') else (HandlerTrue, q').

Definition with_status (j : job) (st : rq_status) (ret : pyval) : job :=
  mkJob st (job_meta j) (job_exc_info j) ret (job_func j)
    (job_args j) (job_result_ttl j) (job_failure_ttl j).

(** The worker runs the job stored under [id] to completion with result
    [ret]. *)
Definition worker_finish (id : string) (ret : pyval) (w : world) : world :=
  match w_queue w !! id with
  | Some j => set_queue w (<[id := with_status j Finished ret]> (w_queue w))
  | None => w
  end.

(** The job stored under [id] raises: the worker marks it failed and runs
    the exception handler [rq_handler] installed for the queue. *)
Definition worker_fail (id : string) (formatted : list string) (w : world) : world :=
  match w_queue w !! id with
  | Some j =>
      set_queue w (snd (rq_handler id (with_status j Failed (job_return_value j))
                          formatted (w_queue w)))
  | None => w
  end.

(** ** ASCII case *)



(** ** [ServerViewSet.plugins] *)

(** [distutils.util.strtobool] on ASCII text. *)
Definition strtobool (v : string) : exn + bool :=
  let v := str_lower v in
  if str_in v ["y"; "yes"; "t"; "true"; "on"; "1"] then inr true
  else if str_in v ["n"; "no"; "f"; "false"; "off"; "0"] then inr false
  else inl ValueError.

Record plugins_resp := mkPlugins {
  GIT_INTEGRATION : bool;
  ANALYTICS : bool;
  MODELS : bool;
  PREDICT : bool
}.

(** [ServerViewSet.plugins]: [environ] is [os.environ.get] and
    [is_installed] is [apps.is_installed]. *)
Definition plugins (environ : string -> option string) (is_installed : string -> bool)
    : exn + plugins_resp :=
  let env_get k d := match environ k with Some v => v | None => d end in
  let r0 := mkPlugins (is_installed "cvat.apps.dataset_repo") false false
              (is_installed "cvat.apps.training") in
  match strtobool (env_get "CVAT_ANALYTICS" "0") with
  | inl e => inl e
  | inr a =>
      let r1 := if a then mkPlugins (GIT_INTEGRATION r0) true (MODELS r0) (PREDICT r0)
                else r0 in
      match strtobool (env_get "CVAT_SERVERLESS" "0") with
      | inl e => inl e
      | inr m =>
          inr (if m then mkPlugins (GIT_INTEGRATION r1) (ANALYTICS r1) true (PREDICT r1)
               else r1)
      end
  end.

(** ** [ServerViewSet.logs] and [ServerViewSet.exception] *)

(** Python truthiness of [d.get(k)]. *)
Definition py_truthy (v : option pyval) : bool :=
  match v with
  | None | Some PNone => false
  | Some (PStr s) => negb (String.eqb s "")
  | Some (PInt z) => negb (z =? 0)%Z
  | Some (PFloat q) => negb (Qeq_bool q 0)
  | Some (PTime _) => true
  end.

(** [{**a, **b}]: the keys of [b] override those of [a]. *)
Definition dict_merge (a b : gmap string pyval) : gmap string pyval := b ∪ a.

Inductive log_target := JobLogger (jid : pyval) | TaskLogger (tid : pyval) | GlobalLogger.
Inductive log_level := LInfo | LError.

(** A logged record: logger, level, and the dict handed to [JSONRenderer]. *)
Definition log_record : Type := log_target * log_level * gmap string pyval.

(** [clogger.job[jid]] if [job_id] is truthy, else [clogger.task[tid]] if
    [task_id] is truthy, else [clogger.glob]. *)
Definition route_log (data : gmap string pyval) : log_target :=
  let jid := data !! "job_id" in
  let tid := data !! "task_id" in
  if py_truthy jid then JobLogger (default PNone jid)
  else if py_truthy tid then TaskLogger (default PNone tid)
  else GlobalLogger.

(** [ServerViewSet.logs] on the validated events [serializer.data]: the
    status, the body, and the records logged. *)
Definition logs (username : string) (events : list (gmap string pyval))
    : Z * list (gmap string pyval) * list log_record :=
  (201, events,
   map (fun event => (route_log event, LInfo,
                      dict_merge event {[ "username" := PStr username ]})) events).

(** [ServerViewSet.exception] on the validated [serializer.data]. *)
Definition exception_view (username : string) (data : gmap string pyval)
    : Z * gmap string pyval * log_record :=
  (201, data,
   (route_log data, LError,
    dict_merge data {[ "username" := PStr username; "name" := PStr "Send exception" ]})).

(** ** [UserViewSet.get_serializer_class] *)

Inductive user_serializer := UserSerializer | BasicUserSerializer.

(** [rest_framework.permissions.SAFE_METHODS] *)
Definition SAFE_METHODS : list string := ["GET"; "HEAD"; "OPTIONS"].

(** [pk] is [self.kwargs.get("pk")] and [py_int] Python's [int]
    ([None]: it raises [ValueError]). *)
Definition user_get_serializer_class (py_int : string -> option Z) (is_staff : bool)
    (user_id : Z) (pk : option string) (action method : string) : exn + user_serializer :=
  if is_staff then inr UserSerializer
  else
    match match pk with Some s => py_int s | None => Some 0 end with
    | None => inl ValueError
    | Some n =>
        let is_self := (n =? user_id)%Z || String.eqb action "self" in
        if is_self && str_in method SAFE_METHODS then inr UserSerializer
        else inr BasicUserSerializer
    end.

(** ** [CloudStorageViewSet.get_queryset] *)

Record cloud_storage := mkStorage {
  cs_id : Z;
  cs_provider : string     (* [provider_type] *)
}.

(** [providers] is [CloudProviderChoice.list()] and [perm_filter] the
    [CloudStoragePermission(...).filter] of the list action; [qs] is the
    base queryset. *)
Definition cloud_get_queryset (providers : list string)
    (perm_filter : list cloud_storage -> list cloud_storage)
    (action : string) (provider_type : option string) (qs : list cloud_storage)
    : exn + list cloud_storage :=
  let qs1 := if String.eqb action "list" then perm_filter qs else qs in
  if truthy provider_type then
    let p := default "" provider_type in
    if str_in p providers then inr (filter (fun s => String.eqb (cs_provider s) p) qs1)
    else inl (ValidationError "Unsupported type of cloud provider")
  else inr qs1.

(** ** The request values formatted into a job id *)

Definition site_user (s : rq_site) : option string :=
  match s with
  | TaskAnnotationsUpload u _ | JobAnnotationsUpload u _ => Some u
  | _ => None
  end.

Definition site_format (s : rq_site) : option string :=
  match s with
  | ProjectDatasetExport _ f | ProjectAnnotations _ f
  | TaskAnnotationsExport _ f | TaskDatasetExport _ f => Some f
  | _ => None
  end.

(** The resource segment after [/api/]. *)
Definition site_resource (s : rq_site) : string :=
  match s with
  | ProjectDatasetImport _ | ProjectDatasetExport _ _ => "project"
  | ProjectAnnotations _ _ => "projects"
  | TaskAnnotationsExport _ _ | TaskAnnotationsUpload _ _ | TaskStatus _
  | TaskDatasetExport _ _ => "tasks"
  | JobAnnotationsUpload _ _ => "jobs"
  end.

(** * Properties *)

(** ** C5 *)

(** C5: both [_get_rq_response] helpers report "Finished" for an absent or
    finished job, "Queued" for a queued one, "Failed" with the job's
    [exc_info] for a failed one, and otherwise "Started" with the message
    and progress read from the job's metadata ([ProjectViewSet]: keys
    [status] (default '') and [progress]; [TaskViewSet]: key [status] when
    present and [task_progress]).  They only read the queue. *)
Theorem get_rq_response_relays (q : queue) (id : string) :
  match fetch_job q id with
  | None =>
      project_get_rq_response q id = [("state", PStr "Finished")] /\
      task_get_rq_response q id = [("state", PStr "Finished")]
  | Some j =>
      dict_get (project_get_rq_response q id) "state" = Some (PStr (relayed_state j)) /\
      dict_get (task_get_rq_response q id) "state" = Some (PStr (relayed_state j)) /\
      match job_status j with
      | Finished | Queued =>
          dict_get (project_get_rq_response q id) "message" = None /\
          dict_get (task_get_rq_response q id) "message" = None
      | Failed =>
          dict_get (project_get_rq_response q id) "message" = Some (exc_info_val j) /\
          dict_get (task_get_rq_response q id) "message" = Some (exc_info_val j)
      | _ =>
          dict_get (project_get_rq_response q id) "message"
            = Some (meta_get j "status" (PStr "")) /\
          dict_get (project_get_rq_response q id) "progress"
            = Some (meta_get j "progress" (PFloat 0)) /\
          dict_get (task_get_rq_response q id) "message" = job_meta j !! "status" /\
          dict_get (task_get_rq_response q id) "progress"
            = Some (meta_get j "task_progress" (PFloat 0))
      end
  end.
Proof.
  unfold project_get_rq_response, task_get_rq_response.
  destruct (fetch_job q id) as [j|]; [|split; reflexivity].
  unfold is_finished, is_queued, is_failed, relayed_state.
  destruct (job_status j); simpl;
    try (destruct (job_meta j !! "status"); simpl);
    repeat split; reflexivity.
Qed.

(** ** C7 *)

Lemma cleanup_tmp_ok (w : world) (id : string) (j : job) :
  import_tmp_ok w id -> w_queue w !! id = Some j ->
  exists f w1, job_meta j !! "tmp_file" = Some (PStr f) /\
    cleanup_tmp j w = (None, w1) /\ (f ∉ w_files w1) /\ w_queue w1 = w_queue w.
Proof.
  intros Hinv Hj.
  destruct (Hinv j Hj) as (f & fd & Hf & Hfd & Hfin & Hfdin).
  exists f, (mkWorld (w_queue w) (w_files w ∖ {[f]}) (w_fds w ∖ {[fd]}) (w_next w)).
  split; [exact Hf|].
  unfold cleanup_tmp. rewrite Hfd. unfold os_close.
  rewrite bool_decide_eq_true_2 by exact Hfdin. rewrite Hf.
  unfold os_remove. simpl. rewrite bool_decide_eq_true_2 by exact Hfin.
  split; [reflexivity|]. split; [simpl; set_solver | reflexivity].
Qed.


(** C7: a GET on a project's dataset endpoint with [action=import_status]
    answers 404 when no job exists under [/api/project/<pk>/dataset_import];
    for a finished job it removes the job's temporary file, deletes the job
    and answers 201; for a job neither finished nor failed it answers 202
    with the status relayed by [_get_rq_response]. *)
Theorem project_dataset_import_status (PROJECT_CACHE_TTL TASK_CACHE_TTL : Z)
    (export_formats import_formats : list format_desc) (strftime_ts : Z -> string)
    (query : gmap string string) (inst : db_instance) (pk : string) (req : request)
    (w : world)
    (Haction : query !! "action" = Some "import_status")
    (Hinv : import_tmp_ok w (project_import_rq_id pk)) :
  let res := project_dataset PROJECT_CACHE_TTL TASK_CACHE_TTL export_formats
               import_formats strftime_ts "GET" query inst pk req w in
  let id := project_import_rq_id pk in
  match fetch_job (w_queue w) id with
  | None => res = (Resp 404 BNone, w)
  | Some j =>
      match job_status j with
      | Finished =>
          exists f w1, job_meta j !! "tmp_file" = Some (PStr f) /\
            (f ∉ w_files w1) /\ w_queue w1 = delete id (w_queue w) /\
            res = (Resp 201 BNone, w1)
      | Failed => True
      | _ => res = (Resp 202 (BDict (project_get_rq_response (w_queue w) id)), w)
      end
  end.
Proof.
  intros res id. subst res.
  unfold project_dataset. simpl. rewrite Haction. simpl.
  unfold project_import_status. fold id.
  destruct (fetch_job (w_queue w) id) as [j|] eqn:Hj; [|reflexivity].
  unfold is_finished, is_failed.
  destruct (job_status j) eqn:Hs; try reflexivity; try exact I.
  destruct (cleanup_tmp_ok w id j Hinv Hj) as (f & w1 & Hf & Hc & Hnot & Hq).
  exists f, (delete_job w1 id). rewrite Hc.
  split; [exact Hf|]. split; [exact Hnot|]. split; [|reflexivity].
  unfold delete_job. simpl. rewrite Hq. reflexivity.
Qed.

Lemma ex_import_world_tmp_ok (id : string) (st : rq_status) (exc : option string) :
  import_tmp_ok (ex_import_world id st exc) id.
Proof.
  intros j Hj. simpl in Hj. rewrite lookup_singleton_eq in Hj.
  injection Hj as <-. exists "/tmp/cvat_1_0", 0.
  split; [reflexivity|]. split; [reflexivity|]. simpl. split; set_solver.
Qed.

Lemma project_dataset_import_status_witness :
  ({[ "action" := "import_status" ]} : gmap string string) !! "action" = Some "import_status" /\
  import_tmp_ok (ex_import_world "/api/project/1/dataset_import" Finished None) "/api/project/1/dataset_import" /\
  exists f w1, (f ∉ w_files w1) /\
    project_dataset 0 0 [] [] (fun _ => "") "GET" {[ "action" := "import_status" ]}
      ex_project "1" ex_request (ex_import_world "/api/project/1/dataset_import" Finished None)
    = (Resp 201 BNone, w1).
Proof.
  split; [reflexivity|]. split; [apply ex_import_world_tmp_ok|].
  pose proof (project_dataset_import_status 0 0 [] [] (fun _ => "")
    {[ "action" := "import_status" ]} ex_project "1" ex_request
    (ex_import_world "/api/project/1/dataset_import" Finished None)
    eq_refl (ex_import_world_tmp_ok _ _ _)) as H.
  simpl in H. destruct H as (f & w1 & _ & Hf & _ & Hr).
  exists f, w1. split; [exact Hf | exact Hr].
Defined.

(** ** C10 *)

(** C10: a POST importing a project dataset in a known, enabled format
    answers 409 "Import job already exists" and leaves the world untouched
    whenever any job (in any state) exists under
    [/api/project/<pk>/dataset_import]; only when none exists is a new
    queued import job stored there, answering 202 (a request without a
    dataset file is rejected by the serializer first). *)
Theorem project_dataset_import_conflict (PROJECT_CACHE_TTL TASK_CACHE_TTL : Z)
    (export_formats import_formats : list format_desc) (strftime_ts : Z -> string)
    (query : gmap string string) (inst : db_instance) (pk : string) (req : request)
    (w : world) (fmt : string) (fd : format_desc)
    (Hq : query !! "format" = Some fmt)
    (Hfmt : lookup_format import_formats fmt = Some fd)
    (Hen : ENABLED fd = true) :
  let res := project_dataset PROJECT_CACHE_TTL TASK_CACHE_TTL export_formats
               import_formats strftime_ts "POST" query inst pk req w in
  let id := project_import_rq_id pk in
  match fetch_job (w_queue w) id with
  | Some _ => res = (Resp 409 (BStr "Import job already exists"), w)
  | None =>
      match req_file req with
      | None => exists e, res = (Raise e, w)
      | Some _ =>
          fst res = Resp 202 BNone /\
          exists j, w_queue (snd res) !! id = Some j /\ job_status j = Queued /\
            (forall id', id' <> id -> w_queue (snd res) !! id' = w_queue w !! id')
      end
  end.
Proof.
  intros res id. subst res.
  unfold project_dataset. simpl. rewrite Hq.
  unfold import_project_dataset. rewrite Hfmt, Hen. simpl. fold id.
  destruct (fetch_job (w_queue w) id) as [j|]; [reflexivity|].
  destruct (req_file req); [|eexists; reflexivity].
  simpl. split; [reflexivity|].
  eexists. split; [apply lookup_insert_eq|]. split; [reflexivity|].
  intros id' Hne. apply lookup_insert_ne. congruence.
Qed.

Lemma project_dataset_import_conflict_witness :
  ({[ "format" := "CVAT 1.1" ]} : gmap string string) !! "format" = Some "CVAT 1.1" /\
  lookup_format ex_formats "CVAT 1.1" = Some (mkFormat "CVAT 1.1" true) /\
  ENABLED (mkFormat "CVAT 1.1" true) = true /\
  project_dataset 0 0 [] ex_formats (fun _ => "") "POST" {[ "format" := "CVAT 1.1" ]}
    ex_project "1" ex_request (ex_import_world "/api/project/1/dataset_import" Finished None)
  = (Resp 409 (BStr "Import job already exists"),
     ex_import_world "/api/project/1/dataset_import" Finished None).
Proof.
  split; [reflexivity|]. split; [reflexivity|]. split; [reflexivity|].
  exact (project_dataset_import_conflict 0 0 [] ex_formats (fun _ => "")
    {[ "format" := "CVAT 1.1" ]} ex_project "1" ex_request
    (ex_import_world "/api/project/1/dataset_import" Finished None)
    "CVAT 1.1" (mkFormat "CVAT 1.1" true) eq_refl eq_refl eq_refl).
Defined.

(** ** C3 *)

(** C3, counterexample: an export request naming an unregistered format
    does not answer 405; [_export_annotations] raises a [ValidationError]
    (HTTP 400). *)
Lemma export_unknown_format_is_validation_error :
  fst (export_annotations 0 0 ex_formats (fun _ => "") ex_task
         "/api/tasks/7/dataset/NoSuch" ex_request "NoSuch" ""
         "dm.views.export_task_as_dataset" "" (mkWorld ∅ ∅ ∅ 0))
  = Raise (ValidationError "Unknown format specified for the request")
  /\ fst (export_annotations 0 0 ex_formats (fun _ => "") ex_task
         "/api/tasks/7/dataset/NoSuch" ex_request "NoSuch" ""
         "dm.views.export_task_as_dataset" "" (mkWorld ∅ ∅ ∅ 0)) <> Resp 405 BNone.
Proof. split; [reflexivity | discriminate]. Qed.

(** C3 (amended): for an export request with a valid action ('' or
    'download') and for the two import paths, a format that is registered
    but disabled answers 405, and a format that is not registered raises a
    [ValidationError] (HTTP 400); in both cases the world, and so the job
    queue, is left unchanged. *)
Theorem format_checks_enqueue_nothing (PROJECT_CACHE_TTL TASK_CACHE_TTL : Z)
    (export_formats import_formats : list format_desc) (av_clean : string -> bool)
    (strftime_ts : Z -> string) (inst : db_instance) (req : request)
    (rq_id rq_func pk format_name action callback filename : string) (w : world)
    (Haction : action = "" \/ action = "download") :
  match lookup_format export_formats format_name with
  | None =>
      export_annotations PROJECT_CACHE_TTL TASK_CACHE_TTL export_formats strftime_ts
        inst rq_id req format_name action callback filename w
      = (Raise (ValidationError "Unknown format specified for the request"), w)
  | Some fd =>
      if ENABLED fd then True else
      export_annotations PROJECT_CACHE_TTL TASK_CACHE_TTL export_formats strftime_ts
        inst rq_id req format_name action callback filename w
      = (Resp 405 BNone, w)
  end /\
  match lookup_format import_formats format_name with
  | None =>
      import_annotations import_formats av_clean req rq_id rq_func pk format_name w
      = (Raise (ValidationError ("Unknown input format '" ++ format_name ++ "'")), w) /\
      import_project_dataset import_formats req rq_id rq_func pk format_name w
      = (Raise (ValidationError ("Unknown input format '" ++ format_name ++ "'")), w)
  | Some fd =>
      if ENABLED fd then True else
      import_annotations import_formats av_clean req rq_id rq_func pk format_name w
      = (Resp 405 BNone, w) /\
      import_project_dataset import_formats req rq_id rq_func pk format_name w
      = (Resp 405 BNone, w)
  end.
Proof.
  split.
  - unfold export_annotations.
    destruct Haction as [-> | ->]; simpl;
      destruct (lookup_format export_formats format_name) as [fd|]; try reflexivity;
      destruct (ENABLED fd); reflexivity.
  - unfold import_annotations, import_project_dataset.
    destruct (lookup_format import_formats format_name) as [fd|]; [|split; reflexivity].
    destruct (ENABLED fd); [exact I | split; reflexivity].
Qed.

Lemma format_checks_enqueue_nothing_witness :
  ("" = "" \/ "" = "download") /\
  export_annotations 0 0 ex_formats (fun _ => "") ex_task "/api/tasks/7/dataset/Disabled 1.0"
    ex_request "Disabled 1.0" "" "dm.views.export_task_as_dataset" "" (mkWorld ∅ ∅ ∅ 0)
  = (Resp 405 BNone, mkWorld ∅ ∅ ∅ 0) /\
  (import_annotations ex_formats (fun _ => true) ex_request "u@/api/tasks/7/annotations/upload"
     "dm.task.import_task_annotations" "7" "Disabled 1.0" (mkWorld ∅ ∅ ∅ 0)
   = (Resp 405 BNone, mkWorld ∅ ∅ ∅ 0) /\
   import_project_dataset ex_formats ex_request "/api/project/7/dataset_import"
     "dm.project.import_dataset_as_project" "7" "Disabled 1.0" (mkWorld ∅ ∅ ∅ 0)
   = (Resp 405 BNone, mkWorld ∅ ∅ ∅ 0)).
Proof.
  split; [left; reflexivity|].
  exact (format_checks_enqueue_nothing 0 0 ex_formats ex_formats (fun _ => true)
    (fun _ => "") ex_task ex_request "/api/tasks/7/dataset/Disabled 1.0"
    "dm.task.import_task_annotations" "7" "Disabled 1.0" "" "dm.views.export_task_as_dataset" ""
    (mkWorld ∅ ∅ ∅ 0) (or_introl eq_refl)).
Defined.

(** ** C2 *)




(** ** C1 *)




(** ** C6 *)

Lemma string_app_assoc (a b c : string) : (a ++ b) ++ c = a ++ (b ++ c).
Proof. induction a as [|x a IH]; [reflexivity|]. change (String x ((a ++ b) ++ c) = String x (a ++ (b ++ c))). rewrite IH. reflexivity. Qed.

Lemma string_app_nil_r (a : string) : a ++ "" = a.
Proof.
  induction a as [|x a IH]; [reflexivity|].
  change (String x (a ++ "") = String x a). rewrite IH. reflexivity.
Qed.

(** C6, counterexample: the id of a task annotation upload job begins with
    the requesting user's name, so it is not of the form
    [/api/<resource>/<id>/<operation>]. *)
Lemma upload_rq_id_not_api_form :
  rq_id_of (TaskAnnotationsUpload "admin" "1") = "admin@/api/tasks/1/annotations/upload" /\
  ~ exists resource id operation,
      rq_id_of (TaskAnnotationsUpload "admin" "1")
      = "/api/" ++ resource ++ "/" ++ id ++ "/" ++ operation.
Proof.
  split; [reflexivity|].
  intros (r & i & op & H). simpl in H. discriminate H.
Qed.

(** C6 (amended): every job id built by the views is
    [<prefix>/api/<resource>/<pk><tail>] where [<resource>] is one of
    project, projects, tasks, jobs; the prefix is empty except for the
    annotation upload jobs, whose prefix is [<user>@] and tail
    [/annotations/upload]; the tail is empty only for the task creation
    status id [/api/tasks/<pk>], and is otherwise [/dataset_import],
    [/annotations/upload] or [/dataset/<format>] or
    [/annotations/<format>]. *)
Theorem rq_id_shape (s : rq_site) :
  exists prefix resource tail,
    rq_id_of s = prefix ++ "/api/" ++ resource ++ "/" ++ site_pk s ++ tail /\
    In resource ["project"; "projects"; "tasks"; "jobs"] /\
    (prefix = "" \/ exists user, prefix = user ++ "@" /\ tail = "/annotations/upload") /\
    ((tail = "" /\ s = TaskStatus (site_pk s)) \/
     tail = "/dataset_import" \/ tail = "/annotations/upload" \/
     exists op f, In op ["dataset"; "annotations"] /\ tail = "/" ++ op ++ "/" ++ f).
Proof.
  destruct s as [pk|pk f|pk f|pk f|u pk|pk|pk f|u pk]; simpl.
  - exists "", "project", "/dataset_import". split; [reflexivity|].
    split; [simpl; tauto|]. split; [left; reflexivity|]. right; left; reflexivity.
  - exists "", "project", ("/dataset/" ++ f). split; [reflexivity|].
    split; [simpl; tauto|]. split; [left; reflexivity|].
    right; right; right. exists "dataset", f. split; [simpl; tauto | reflexivity].
  - exists "", "projects", ("/annotations/" ++ f). split; [reflexivity|].
    split; [simpl; tauto|]. split; [left; reflexivity|].
    right; right; right. exists "annotations", f. split; [simpl; tauto | reflexivity].
  - exists "", "tasks", ("/annotations/" ++ f). split; [reflexivity|].
    split; [simpl; tauto|]. split; [left; reflexivity|].
    right; right; right. exists "annotations", f. split; [simpl; tauto | reflexivity].
  - exists (u ++ "@"), "tasks", "/annotations/upload".
    split; [rewrite string_app_assoc; reflexivity|].
    split; [simpl; tauto|]. split; [right; exists u; split; reflexivity|].
    right; right; left; reflexivity.
  - exists "", "tasks", "". split; [simpl; rewrite string_app_nil_r; reflexivity|].
    split; [simpl; tauto|]. split; [left; reflexivity|].
    left; split; reflexivity.
  - exists "", "tasks", ("/dataset/" ++ f). split; [reflexivity|].
    split; [simpl; tauto|]. split; [left; reflexivity|].
    right; right; right. exists "dataset", f. split; [simpl; tauto | reflexivity].
  - exists (u ++ "@"), "jobs", "/annotations/upload".
    split; [rewrite string_app_assoc; reflexivity|].
    split; [simpl; tauto|]. split; [right; exists u; split; reflexivity|].
    right; right; left; reflexivity.
Qed.

(** ** C4 *)

Lemma prefix_refl (a : string) : String.prefix a a = true.
Proof.
  induction a as [|x a IH]; [reflexivity|]. simpl.
  destruct (ascii_dec x x) as [_|n]; [exact IH | contradiction].
Qed.

Lemma prefix_app_l (a b p : string) :
  String.prefix (a ++ b) p = true -> String.prefix a p = true.
Proof.
  revert p. induction a as [|x a IH]; intros p H; [destruct p; reflexivity|].
  destruct p as [|y p]; [discriminate|].
  change (String.prefix (String x (a ++ b)) (String y p) = true) in H.
  simpl in H |- *. destruct (ascii_dec x y); [exact (IH p H) | discriminate].
Qed.

Lemma path_under_prefix (a p : string) :
  path_under a p = true -> String.prefix a p = true.
Proof.
  unfold path_under, startswith. intros H.
  apply orb_true_iff in H as [H|H].
  - apply String.eqb_eq in H. subst p. apply prefix_refl.
  - exact (prefix_app_l a "/" p H).
Qed.

(** Two prefixes of one string are comparable. *)
Lemma prefix_comparable (a b p : string) :
  String.prefix a p = true -> String.prefix b p = true ->
  String.prefix a b = true \/ String.prefix b a = true.
Proof.
  revert b p. induction a as [|x a IH]; intros b p Ha Hb; [left; destruct b; reflexivity|].
  destruct b as [|z b]; [right; reflexivity|].
  destruct p as [|y p]; [discriminate|].
  simpl in Ha, Hb.
  destruct (ascii_dec x y) as [->|]; [|discriminate].
  destruct (ascii_dec z y) as [->|]; [|discriminate].
  simpl. destruct (ascii_dec y y) as [_|n]; [|contradiction].
  exact (IH b p Ha Hb).
Qed.

Lemma elem_of_rmtree (d p : string) (fs : gset string) :
  p ∈ rmtree d fs <-> path_under d p = false /\ p ∈ fs.
Proof. unfold rmtree. exact (elem_of_filter (fun q => path_under d q = false) fs p). Qed.

Lemma data_referenced_false (tasks : gmap Z task_row) (d : Z) :
  (forall k r, tasks !! k = Some r -> t_data r <> Some d) ->
  data_referenced tasks d = false.
Proof.
  intros H. unfold data_referenced. apply negb_false_iff, bool_decide_eq_true_2.
  apply map_empty_filter_2. intros k r Hk. exact (H k r Hk).
Qed.

Lemma data_referenced_true (tasks : gmap Z task_row) (d k : Z) (r : task_row) :
  tasks !! k = Some r -> t_data r = Some d -> data_referenced tasks d = true.
Proof.
  intros Hk Hr. unfold data_referenced. apply negb_true_iff, bool_decide_eq_false_2.
  intros Hempty. exact (map_filter_empty_not_lookup _ _ k r Hempty Hr Hk).
Qed.

(** C4: after [perform_destroy] of task [t] (with [task_dirname t] and the
    data directory in disjoint trees) nothing under the task's directory is
    left on disk and the task row is gone; if the task's data is referenced
    by no other task, the data record is deleted and nothing under its
    directory is left; if another task still references it, the data
    records and everything under the data directory are unchanged. *)
Theorem perform_destroy_cleanup (task_dirname data_dirname : Z -> string)
    (t : Z) (row : task_row) (now : Z) (s : db)
    (Ht : db_tasks s !! t = Some row)
    (Hsep : forall d p, t_data row = Some d ->
            path_under (task_dirname t) p = true -> path_under (data_dirname d) p = false) :
  let s' := perform_destroy task_dirname data_dirname t row now s in
  (forall p, path_under (task_dirname t) p = true -> p ∉ db_fs s') /\
  db_tasks s' !! t = None /\
  (forall d, t_data row = Some d ->
     (forall t' r', t' <> t -> db_tasks s !! t' = Some r' -> t_data r' <> Some d) ->
     (d ∉ db_datas s') /\ forall p, path_under (data_dirname d) p = true -> p ∉ db_fs s') /\
  (forall d t' r', t_data row = Some d -> t' <> t -> db_tasks s !! t' = Some r' ->
     t_data r' = Some d ->
     db_datas s' = db_datas s /\
     forall p, path_under (data_dirname d) p = true -> (p ∈ db_fs s' <-> p ∈ db_fs s)).
Proof.
  intros s'. subst s'. unfold perform_destroy.
  destruct (t_data row) as [d|] eqn:Hd.
  - destruct (data_referenced (delete t (db_tasks s)) d) eqn:Hr; simpl.
    + split; [intros p Hp Hin; apply elem_of_rmtree in Hin as [Hin _]; congruence|].
      split; [apply lookup_delete_eq|].
      split.
      * intros d0 [= <-] Hnone. exfalso.
        assert (Hf : data_referenced (delete t (db_tasks s)) d = false).
        { apply data_referenced_false. intros k r Hk.
          destruct (decide (k = t)) as [->|Hne].
          - rewrite lookup_delete_eq in Hk. discriminate.
          - rewrite lookup_delete_ne in Hk by congruence. exact (Hnone k r Hne Hk). }
        congruence.
      * intros d0 t' r' [= <-] Hne Ht' Hr'. split; [reflexivity|].
        intros p Hp. rewrite elem_of_rmtree.
        assert (Hnt : path_under (task_dirname t) p = false).
        { destruct (path_under (task_dirname t) p) eqn:E; [|reflexivity].
          rewrite (Hsep d p eq_refl E) in Hp. discriminate. }
        tauto.
    + split; [intros p Hp Hin; apply elem_of_rmtree in Hin as [_ Hin];
              apply elem_of_rmtree in Hin as [Hin _]; congruence|].
      split; [apply lookup_delete_eq|].
      split.
      * intros d0 [= <-] _. split; [set_solver|].
        intros p Hp Hin. apply elem_of_rmtree in Hin as [Hin _]. congruence.
      * intros d0 t' r' [= <-] Hne Ht' Hr'. exfalso.
        assert (Hrt : data_referenced (delete t (db_tasks s)) d = true).
        { apply (data_referenced_true _ d t' r'); [|exact Hr'].
          rewrite lookup_delete_ne by congruence. exact Ht'. }
        congruence.
  - simpl.
    split; [intros p Hp Hin; apply elem_of_rmtree in Hin as [Hin _]; congruence|].
    split; [apply lookup_delete_eq|].
    split; intros; discriminate.
Qed.

Lemma perform_destroy_cleanup_witness :
  db_tasks (mkDb {[ 1 := mkTaskRow (Some 5) None; 2 := mkTaskRow (Some 5) None ]}
              {[ 5 ]} ∅ {[ "/data/tasks/1"; "/data/data/5" ]}) !! 1
    = Some (mkTaskRow (Some 5) None) /\
  db_datas (perform_destroy (fun _ => "/data/tasks/1") (fun _ => "/data/data/5") 1
              (mkTaskRow (Some 5) None) 0
              (mkDb {[ 1 := mkTaskRow (Some 5) None; 2 := mkTaskRow (Some 5) None ]}
                 {[ 5 ]} ∅ {[ "/data/tasks/1"; "/data/data/5" ]}))
    = {[ 5 ]}.
Proof.
  split; [reflexivity|].
  refine (proj1 (proj2 (proj2 (proj2 (perform_destroy_cleanup
    (fun _ => "/data/tasks/1") (fun _ => "/data/data/5") 1 (mkTaskRow (Some 5) None) 0
    (mkDb {[ 1 := mkTaskRow (Some 5) None; 2 := mkTaskRow (Some 5) None ]}
       {[ 5 ]} ∅ {[ "/data/tasks/1"; "/data/data/5" ]}) eq_refl _))) 5 2 (mkTaskRow (Some 5) None)
    eq_refl _ eq_refl eq_refl)).
  - intros d p _ Hp. destruct (path_under "/data/data/5" p) eqn:E; [|reflexivity].
    apply path_under_prefix in Hp, E.
    destruct (prefix_comparable _ _ _ Hp E) as [H|H]; vm_compute in H; discriminate H.
  - discriminate.
Defined.

(** ** C8 *)

(** C8: with [SHARE_ROOT = /home/django/share] and a sibling directory
    [/home/django/share_private], the request [directory=../share_private]
    is listed although its normalized path lies outside SHARE_ROOT: the
    guard [directory.startswith(settings.SHARE_ROOT)] compares strings, not
    path components. *)
Theorem share_lists_sibling_of_root :
  share "/home/django/share" "/home/django"
    (fun d => String.eqb d "/home/django/share_private")
    (fun _ => [("secret.txt", KFile)]) (Some "../share_private")
  = ShareListed "/home/django/share_private" [("secret.txt", "REG")] /\
  abspath "/home/django" (path_join "/home/django/share" "../share_private")
  = "/home/django/share_private" /\
  path_under "/home/django/share" "/home/django/share_private" = false.
Proof. split; [|split]; reflexivity. Qed.

(** ** C9 *)

(** C9: a [context_image] request without a [number] passes the
    constructor (only [chunk] and [frame] require a number) and the serving
    call then evaluates [start <= None], which raises [TypeError] (an HTTP
    500), not a [ValidationError]. *)
Theorem context_image_without_number_raises_type_error
    (py_int : string -> option Z) (get_chunk_number : Z -> Z)
    (related_files : Z -> option (list string)) (start stop : Z) :
  chunk_getter_init py_int (Some "context_image") None "compressed" "2d"
  = inr (mkGetter "context_image" None COMPRESSED "2d") /\
  chunk_getter_call get_chunk_number related_files
    (mkGetter "context_image" None COMPRESSED "2d") start stop true
  = inl TypeError.
Proof. split; reflexivity. Qed.

(** The other parts of the C9 sentence hold: [chunk] and [frame] getters are
    only built with a truthy number and a valid quality, and whatever is
    served lies in the requested range. *)
Lemma chunk_getter_init_requires_number (py_int : string -> option Z)
    (t : string) (data_num : option string) (data_quality dim : string) (g : chunk_getter) :
  (String.eqb t "chunk" || String.eqb t "frame") = true ->
  chunk_getter_init py_int (Some t) data_num data_quality dim = inr g ->
  truthy data_num = true /\ str_in data_quality ["compressed"; "original"] = true.
Proof.
  intros Ht H. unfold chunk_getter_init in H. rewrite Ht in H.
  destruct (truthy data_num) eqn:E1, (str_in data_quality ["compressed"; "original"]) eqn:E2;
    try (split; reflexivity);
    destruct (negb (truthy (Some t))
              || negb (str_in t ["chunk"; "frame"; "preview"; "context_image"]));
    simpl in H; discriminate H.
Qed.

Lemma chunk_getter_call_in_range (get_chunk_number : Z -> Z)
    (related_files : Z -> option (list string)) (g : chunk_getter) (start stop : Z)
    (b : bool) (r : served) :
  chunk_getter_call get_chunk_number related_files g start stop b = inr r ->
  match r with
  | ServeChunk n _ => (get_chunk_number start <= n <= get_chunk_number stop)%Z
  | ServeFrame n _ | ServeContextImage n _ => (start <= n <= stop)%Z
  | _ => True
  end.
Proof.
  unfold chunk_getter_call, py_between.
  destruct b; [|discriminate]. simpl.
  destruct (String.eqb (cg_type g) "chunk");
    [|destruct (String.eqb (cg_type g) "frame");
      [|destruct (String.eqb (cg_type g) "preview");
        [|destruct (String.eqb (cg_type g) "context_image")]]];
    destruct (cg_number g) as [n|]; try discriminate;
    try (intros H; injection H as <-; exact I).
  all: destruct ((_ <=? n)%Z) eqn:E1; destruct ((n <=? _)%Z) eqn:E2; simpl; try discriminate.
  all: try (intros H; injection H as <-; lia).
  destruct (related_files n) as [[|p ps]|]; try discriminate;
    intros H; injection H as <-; [exact I | lia].
Qed.

(** * Further properties of views.py *)

(** ** Job ids: splitting on '/' *)

Lemma split_slash_nonempty (s : string) : split_slash s <> [].
Proof.
  induction s as [|c s IH]; simpl; [discriminate|].
  destruct (Ascii.eqb c "/"); [discriminate|].
  destruct (split_slash s); discriminate.
Qed.

Lemma split_slash_app_slash (a b : string) :
  split_slash (a ++ String "/" b) = (split_slash a ++ split_slash b)%list.
Proof.
  induction a as [|c a IH]; [reflexivity|].
  change (split_slash (String c (a ++ String "/" b))
          = (split_slash (String c a) ++ split_slash b)%list).
  simpl. rewrite IH. destruct (Ascii.eqb c "/"); [reflexivity|].
  destruct (split_slash a) eqn:E; [exfalso; exact (split_slash_nonempty a E)|reflexivity].
Qed.

Lemma split_slash_noslash (s : string) : has_slash s = false -> split_slash s = [s].
Proof.
  induction s as [|c s IH]; intros H; [reflexivity|].
  simpl in H |- *. apply orb_false_iff in H as [Hc Hs].
  rewrite Hc, (IH Hs). reflexivity.
Qed.

Lemma join_split_slash (s : string) : join_slash (split_slash s) = s.
Proof.
  induction s as [|c s IH]; [reflexivity|]. simpl.
  pose proof (split_slash_nonempty s) as Hne.
  destruct (Ascii.eqb c "/") eqn:Ec.
  - apply Ascii.eqb_eq in Ec. subst c.
    destruct (split_slash s) as [|h t]; [contradiction|].
    change (String "/" (join_slash (h :: t)) = String "/" s). rewrite IH. reflexivity.
  - destruct (split_slash s) as [|h t]; [contradiction|].
    destruct t as [|h' t].
    + simpl in IH |- *. rewrite IH. reflexivity.
    + change (String c (h ++ "/" ++ join_slash (h' :: t)) = String c s).
      change (h ++ "/" ++ join_slash (h' :: t) = s) in IH. rewrite IH. reflexivity.
Qed.

Lemma split_slash_inj (a b : string) : split_slash a = split_slash b -> a = b.
Proof.
  intros H. rewrite <- (join_split_slash a), <- (join_split_slash b), H. reflexivity.
Qed.

Lemma has_slash_app (a b : string) :
  has_slash (a ++ b) = has_slash a || has_slash b.
Proof.
  induction a as [|c a IH]; [reflexivity|].
  change (Ascii.eqb c "/" || has_slash (a ++ b) = (Ascii.eqb c "/" || has_slash a) || has_slash b).
  rewrite IH, orb_assoc. reflexivity.
Qed.

Lemma string_length_app (a b : string) :
  String.length (a ++ b) = (String.length a + String.length b)%nat.
Proof.
  induction a as [|c a IH]; [reflexivity|].
  change (S (String.length (a ++ b)) = S (String.length a + String.length b)%nat).
  rewrite IH. reflexivity.
Qed.

Lemma string_app_inj_r (a b c : string) : a ++ c = b ++ c -> a = b.
Proof.
  revert b. induction a as [|x a IH]; intros b H; destruct b as [|y b].
  - reflexivity.
  - exfalso. apply (f_equal String.length) in H.
    change (String.length c = S (String.length (b ++ c))) in H.
    rewrite string_length_app in H. lia.
  - exfalso. apply (f_equal String.length) in H.
    change (S (String.length (a ++ c)) = String.length c) in H.
    rewrite string_length_app in H. lia.
  - change (String x (a ++ c) = String y (b ++ c)) in H.
    injection H as -> H. rewrite (IH b H). reflexivity.
Qed.

Lemma user_component_not_tasks (u : string) : u ++ "@" <> "tasks".
Proof.
  intros H. pose proof (f_equal String.length H) as Hl.
  rewrite string_length_app in Hl. simpl in Hl.
  destruct u as [|c1 [|c2 [|c3 [|c4 [|c5 u]]]]]; try (simpl in Hl; lia).
  change (String c1 (String c2 (String c3 (String c4 "@"))) = "tasks") in H.
  discriminate.
Qed.

Lemma split_rq_id (s : rq_site) :
  has_slash (site_pk s) = false ->
  (forall u, site_user s = Some u -> has_slash u = false) ->
  split_slash (rq_id_of s) =
  match s with
  | ProjectDatasetImport pk => [""; "api"; "project"; pk; "dataset_import"]
  | ProjectDatasetExport pk f => ([""; "api"; "project"; pk; "dataset"] ++ split_slash f)%list
  | ProjectAnnotations pk f => ([""; "api"; "projects"; pk; "annotations"] ++ split_slash f)%list
  | TaskAnnotationsExport pk f => ([""; "api"; "tasks"; pk; "annotations"] ++ split_slash f)%list
  | TaskAnnotationsUpload u pk => [u ++ "@"; "api"; "tasks"; pk; "annotations"; "upload"]
  | TaskStatus pk => [""; "api"; "tasks"; pk]
  | TaskDatasetExport pk f => ([""; "api"; "tasks"; pk; "dataset"] ++ split_slash f)%list
  | JobAnnotationsUpload u pk => [u ++ "@"; "api"; "jobs"; pk; "annotations"; "upload"]
  end.
Proof.
  intros Hpk Hu.
  assert (Hat : forall u, has_slash u = false -> split_slash (u ++ "@") = [u ++ "@"]).
  { intros u Hs. apply split_slash_noslash. rewrite has_slash_app, Hs. reflexivity. }
  destruct s as [pk|pk f|pk f|pk f|u pk|pk|pk f|u pk]; simpl in Hpk, Hu;
    cbv beta iota delta [rq_id_of].
  - replace ("/api/project/" ++ pk ++ "/dataset_import")
               with ("" ++ String "/" ("api" ++ String "/" ("project" ++ String "/"
                   (pk ++ String "/" "dataset_import")))) by reflexivity.
    rewrite !split_slash_app_slash, (split_slash_noslash pk Hpk). reflexivity.
  - replace ("/api/project/" ++ pk ++ "/dataset/" ++ f)
               with ("" ++ String "/" ("api" ++ String "/" ("project" ++ String "/"
                   (pk ++ String "/" ("dataset" ++ String "/" f))))) by reflexivity.
    rewrite !split_slash_app_slash, (split_slash_noslash pk Hpk). reflexivity.
  - replace ("/api/projects/" ++ pk ++ "/annotations/" ++ f)
               with ("" ++ String "/" ("api" ++ String "/" ("projects" ++ String "/"
                   (pk ++ String "/" ("annotations" ++ String "/" f))))) by reflexivity.
    rewrite !split_slash_app_slash, (split_slash_noslash pk Hpk). reflexivity.
  - replace ("/api/tasks/" ++ pk ++ "/annotations/" ++ f)
               with ("" ++ String "/" ("api" ++ String "/" ("tasks" ++ String "/"
                   (pk ++ String "/" ("annotations" ++ String "/" f))))) by reflexivity.
    rewrite !split_slash_app_slash, (split_slash_noslash pk Hpk). reflexivity.
  - replace (u ++ "@/api/tasks/" ++ pk ++ "/annotations/upload")
               with ((u ++ "@") ++ String "/" ("api" ++ String "/" ("tasks" ++ String "/"
                   (pk ++ String "/" ("annotations" ++ String "/" "upload"))))) by (rewrite string_app_assoc; reflexivity).
    rewrite !split_slash_app_slash, (split_slash_noslash pk Hpk), (Hat u (Hu u eq_refl)).
    reflexivity.
  - replace ("/api/tasks/" ++ pk)
               with ("" ++ String "/" ("api" ++ String "/" ("tasks" ++ String "/" pk))) by reflexivity.
    rewrite !split_slash_app_slash, (split_slash_noslash pk Hpk). reflexivity.
  - replace ("/api/tasks/" ++ pk ++ "/dataset/" ++ f)
               with ("" ++ String "/" ("api" ++ String "/" ("tasks" ++ String "/"
                   (pk ++ String "/" ("dataset" ++ String "/" f))))) by reflexivity.
    rewrite !split_slash_app_slash, (split_slash_noslash pk Hpk). reflexivity.
  - replace (u ++ "@/api/jobs/" ++ pk ++ "/annotations/upload")
               with ((u ++ "@") ++ String "/" ("api" ++ String "/" ("jobs" ++ String "/"
                   (pk ++ String "/" ("annotations" ++ String "/" "upload"))))) by (rewrite string_app_assoc; reflexivity).
    rewrite !split_slash_app_slash, (split_slash_noslash pk Hpk), (Hat u (Hu u eq_refl)).
    reflexivity.
Qed.

Lemma user_component_nonempty (u : string) : u ++ "@" <> "".
Proof. destruct u; discriminate. Qed.

Theorem rq_id_of_injective (s1 s2 : rq_site)
    (Hpk1 : has_slash (site_pk s1) = false) (Hpk2 : has_slash (site_pk s2) = false)
    (Hu1 : forall u, site_user s1 = Some u -> has_slash u = false)
    (Hu2 : forall u, site_user s2 = Some u -> has_slash u = false) :
  rq_id_of s1 = rq_id_of s2 -> s1 = s2.
Proof.
  intros H. apply (f_equal split_slash) in H.
  rewrite (split_rq_id s1 Hpk1 Hu1), (split_rq_id s2 Hpk2 Hu2) in H.
  destruct s1 as [pk|pk f|pk f|pk f|u pk|pk|pk f|u pk],
           s2 as [pk'|pk' f'|pk' f'|pk' f'|u' pk'|pk'|pk' f'|u' pk']; simpl in H;
    simplify_eq H; intros; subst.
  all: first
    [ reflexivity
    | match goal with Hf : split_slash ?a = split_slash ?b |- _ =>
        apply split_slash_inj in Hf; subst; reflexivity end
    | match goal with He : ?a ++ "@" = ?b ++ "@" |- _ =>
        apply string_app_inj_r in He; subst; reflexivity end
    | exfalso; match goal with
      | He : "" = ?u ++ "@" |- _ => exact (user_component_nonempty u (eq_sym He))
      | He : ?u ++ "@" = "" |- _ => exact (user_component_nonempty u He)
      end ].
Qed.

Lemma str_in_false (x : string) (l : list string) : ~ In x l -> str_in x l = false.
Proof.
  intros H. unfold str_in. apply not_true_iff_false. intros Hx.
  apply existsb_exists in Hx as (y & Hy & Hxy). apply String.eqb_eq in Hxy. subst y.
  contradiction.
Qed.

Theorem rq_handler_delegates_task_jobs (s : rq_site) (j : job) (formatted : list string)
    (q : queue)
    (Hpk : has_slash (site_pk s) = false) (Hpk' : site_pk s <> "tasks")
    (Hu : forall u, site_user s = Some u -> has_slash u = false)
    (Hf : forall f, site_format s = Some f -> ~ In "tasks" (split_slash f)) :
  rq_handler (rq_id_of s) j formatted q =
  (if String.eqb (site_resource s) "tasks" then HandlerDelegated else HandlerTrue,
   <[rq_id_of s := with_exc_info j (String.concat "" formatted)]> q).
Proof.
  unfold rq_handler. rewrite (split_rq_id s Hpk Hu).
  assert (Hpkf : String.eqb "tasks" (site_pk s) = false)
    by (apply String.eqb_neq; congruence).
  destruct s as [pk|pk f|pk f|pk f|u pk|pk|pk f|u pk];
    cbn [site_pk site_user site_format site_resource] in *;
    unfold str_in; rewrite ?existsb_app; cbn [existsb];
    rewrite ?Hpkf;
    try (assert (Hff : existsb (String.eqb "tasks") (split_slash f) = false)
           by exact (str_in_false _ _ (Hf f eq_refl));
         rewrite Hff);
    try (assert (Huf : String.eqb "tasks" (u ++ "@") = false)
           by (apply String.eqb_neq; intros E; exact (user_component_not_tasks u (eq_sym E)));
         rewrite Huf);
    reflexivity.
Qed.

Lemma rq_id_of_injective_witness :
  rq_id_of (TaskAnnotationsUpload "admin" "7") <> rq_id_of (JobAnnotationsUpload "admin" "7").
Proof.
  intros H.
  apply (rq_id_of_injective (TaskAnnotationsUpload "admin" "7") (JobAnnotationsUpload "admin" "7"))
    in H; [discriminate H | reflexivity | reflexivity
    | intros u Hu; injection Hu as <-; reflexivity
    | intros u Hu; injection Hu as <-; reflexivity].
Defined.

Lemma rq_handler_delegates_task_jobs_witness :
  fst (rq_handler (rq_id_of (TaskDatasetExport "7" "CVAT 1.1")) (ex_import_job Started None)
         ["ValueError: boom"] ∅) = HandlerDelegated /\
  fst (rq_handler (rq_id_of (ProjectDatasetExport "1" "CVAT 1.1")) (ex_import_job Started None)
         ["ValueError: boom"] ∅) = HandlerTrue.
Proof.
  split.
  - rewrite (rq_handler_delegates_task_jobs (TaskDatasetExport "7" "CVAT 1.1")); 
      [reflexivity | reflexivity | discriminate | discriminate
      | intros f Hf; injection Hf as <-; simpl; intuition discriminate].
  - rewrite (rq_handler_delegates_task_jobs (ProjectDatasetExport "1" "CVAT 1.1"));
      [reflexivity | reflexivity | discriminate | discriminate
      | intros f Hf; injection Hf as <-; simpl; intuition discriminate].
Defined.
(** ** Import round trips *)

Lemma rq_handler_queue (id : string) (j : job) (fm : list string) (q : queue) :
  snd (rq_handler id j fm q) = <[id := with_exc_info j (String.concat "" fm)]> q.
Proof. unfold rq_handler. destruct (str_in "tasks" (split_slash id)); reflexivity. Qed.

Lemma cleanup_tmp_meta (j : job) (name : string) (fdn : Z) (w : world) :
  job_meta j = {[ "tmp_file" := PStr name; "tmp_file_descriptor" := PInt fdn ]} ->
  fdn ∈ w_fds w -> name ∈ w_files w ->
  cleanup_tmp j w
  = (None, mkWorld (w_queue w) (w_files w ∖ {[name]}) (w_fds w ∖ {[fdn]}) (w_next w)).
Proof.
  intros Hm Hfd Hf. unfold cleanup_tmp. rewrite Hm.
  rewrite lookup_insert_ne by discriminate. rewrite lookup_singleton_eq.
  unfold os_close. rewrite bool_decide_eq_true_2 by exact Hfd.
  rewrite lookup_insert_eq. unfold os_remove. simpl.
  rewrite bool_decide_eq_true_2 by exact Hf. reflexivity.
Qed.

Theorem import_annotations_round_trip (import_formats : list format_desc)
    (av_clean : string -> bool) (req : request) (rq_id rq_func pk fmt : string)
    (fd : format_desc) (w : world) (outcome : option (list string)) (ret : pyval)
    (Hfmt : lookup_format import_formats fmt = Some fd) (Hen : ENABLED fd = true)
    (Hnone : w_queue w !! rq_id = None) (Hfile : req_file req <> None)
    (Hclean : av_clean (snd (fst (mkstemp ("cvat_" ++ pk) w))) = true)
    (Hfresh : snd (fst (mkstemp ("cvat_" ++ pk) w)) ∉ w_files w)
    (Hfd : w_next w ∉ w_fds w) :
  let step1 := import_annotations import_formats av_clean req rq_id rq_func pk fmt w in
  let w2 := match outcome with
            | None => worker_finish rq_id ret (snd step1)
            | Some fm => worker_fail rq_id fm (snd step1)
            end in
  let step2 := import_annotations import_formats av_clean req rq_id rq_func pk fmt w2 in
  fst step1 = Resp 202 BNone /\
  fst step2 = match outcome with
              | None => Resp 201 BNone
              | Some fm =>
                  let t := String.concat "" fm in
                  if startswith t import_error_prefix
                  then Resp 400 (BStr (str_replace t (import_error_prefix ++ ": ") ""))
                  else Resp 500 (BStr t)
              end /\
  w_queue (snd step2) = w_queue w /\ w_files (snd step2) = w_files w /\
  w_fds (snd step2) = w_fds w.
Proof.
  intros step1 w2 step2.
  unfold mkstemp in Hclean, Hfresh; simpl in Hclean, Hfresh.
  assert (E1 : step1 = (Resp 202 BNone, set_queue
     (mkWorld (w_queue w) ({[ "/tmp/" ++ ("cvat_" ++ pk) ++ "_" ++ pretty (Z.to_N (w_next w)) ]} ∪ w_files w)
        ({[ w_next w ]} ∪ w_fds w) (w_next w + 1))
     (<[rq_id := mkJob Queued {[ "tmp_file" := PStr ("/tmp/" ++ ("cvat_" ++ pk) ++ "_" ++ pretty (Z.to_N (w_next w)));
                                 "tmp_file_descriptor" := PInt (w_next w) ]} None PNone rq_func
                   [pk; "/tmp/" ++ ("cvat_" ++ pk) ++ "_" ++ pretty (Z.to_N (w_next w)); fmt] None None]>
       (w_queue w)))).
  { unfold step1, import_annotations. rewrite Hfmt, Hen. simpl.
    unfold fetch_job. rewrite Hnone. destruct (req_file req); [|contradiction].
    unfold mkstemp. simpl. rewrite Hclean. reflexivity. }
  set (name := "/tmp/" ++ ("cvat_" ++ pk) ++ "_" ++ pretty (Z.to_N (w_next w))) in *.
  set (J := mkJob Queued {[ "tmp_file" := PStr name; "tmp_file_descriptor" := PInt (w_next w) ]}
              None PNone rq_func [pk; name; fmt] None None) in *.
  split; [rewrite E1; reflexivity|].
  unfold step2, w2. rewrite E1. simpl snd.
  assert (Hq : forall J', delete rq_id (<[rq_id := J']> (<[rq_id := J]> (w_queue w))) = w_queue w).
  { intros J'. rewrite delete_insert_eq, delete_insert_eq. apply delete_id. exact Hnone. }
  assert (Hfiles : ({[name]} ∪ w_files w) ∖ {[name]} = w_files w)
    by (apply leibniz_equiv; set_solver).
  assert (Hfds : ({[w_next w]} ∪ w_fds w) ∖ {[w_next w]} = w_fds w)
    by (apply leibniz_equiv; set_solver).
  destruct outcome as [fm|].
  - unfold worker_fail. simpl. rewrite lookup_insert_eq. simpl. rewrite rq_handler_queue.
    unfold import_annotations. rewrite Hfmt, Hen. simpl.
    unfold fetch_job. simpl. rewrite lookup_insert_eq. simpl.
    rewrite (cleanup_tmp_meta _ name (w_next w)) by (simpl; first [reflexivity | set_solver]).
    simpl. unfold str_exc_info. simpl.
    destruct (startswith (String.concat "" fm) import_error_prefix);
      (split; [reflexivity|]); simpl; rewrite Hq;
      (split; [reflexivity|]); split; assumption.
  - unfold worker_finish. simpl. rewrite lookup_insert_eq. simpl.
    unfold import_annotations. rewrite Hfmt, Hen. simpl.
    unfold fetch_job. simpl. rewrite lookup_insert_eq. simpl.
    rewrite (cleanup_tmp_meta _ name (w_next w)) by (simpl; first [reflexivity | set_solver]).
    split; [reflexivity|]. simpl. rewrite Hq. split; [reflexivity|]. split; assumption.
Qed.

Lemma import_annotations_round_trip_witness :
  fst (import_annotations ex_formats (fun _ => true) ex_request
         "admin@/api/tasks/1/annotations/upload" "dm.task.import_task_annotations" "1" "CVAT 1.1"
         (worker_fail "admin@/api/tasks/1/annotations/upload"
            ["cvat.apps.dataset_manager.bindings.CvatImportError: bad file"]
            (snd (import_annotations ex_formats (fun _ => true) ex_request
                    "admin@/api/tasks/1/annotations/upload" "dm.task.import_task_annotations"
                    "1" "CVAT 1.1" (mkWorld ∅ ∅ ∅ 0)))))
  = Resp 400 (BStr "bad file").
Proof.
  pose proof (import_annotations_round_trip ex_formats (fun _ => true) ex_request
    "admin@/api/tasks/1/annotations/upload" "dm.task.import_task_annotations" "1" "CVAT 1.1"
    (mkFormat "CVAT 1.1" true) (mkWorld ∅ ∅ ∅ 0)
    (Some ["cvat.apps.dataset_manager.bindings.CvatImportError: bad file"]) PNone
    eq_refl eq_refl eq_refl ltac:(discriminate) eq_refl
    ltac:(apply not_elem_of_empty) ltac:(apply not_elem_of_empty)) as H.
  cbv zeta in H. destruct H as [_ [H _]]. rewrite H. vm_compute. reflexivity.
Defined.

Theorem project_dataset_import_round_trip (PROJECT_CACHE_TTL TASK_CACHE_TTL : Z)
    (export_formats import_formats : list format_desc) (strftime_ts : Z -> string)
    (qpost qget : gmap string string) (inst : db_instance) (req : request) (pk fmt : string)
    (fd : format_desc) (w : world) (outcome : option (list string)) (ret : pyval)
    (Hq : qpost !! "format" = Some fmt) (Haction : qget !! "action" = Some "import_status")
    (Hfmt : lookup_format import_formats fmt = Some fd) (Hen : ENABLED fd = true)
    (Hnone : w_queue w !! project_import_rq_id pk = None) (Hfile : req_file req <> None)
    (Hfresh : snd (fst (mkstemp ("cvat_" ++ pk) w)) ∉ w_files w)
    (Hfd : w_next w ∉ w_fds w) :
  let view m q := project_dataset PROJECT_CACHE_TTL TASK_CACHE_TTL export_formats
                    import_formats strftime_ts m q inst pk req in
  let step1 := view "POST" qpost w in
  let w2 := match outcome with
            | None => worker_finish (project_import_rq_id pk) ret (snd step1)
            | Some fm => worker_fail (project_import_rq_id pk) fm (snd step1)
            end in
  let step2 := view "GET" qget w2 in
  fst step1 = Resp 202 BNone /\
  fst step2 = match outcome with
              | None => Resp 201 BNone
              | Some fm => Resp 500 (BStr (String.concat "" fm))
              end /\
  w_queue (snd step2) = w_queue w /\ w_files (snd step2) = w_files w /\
  w_fds (snd step2) = w_fds w.
Proof.
  intros view step1 w2 step2.
  unfold mkstemp in Hfresh; simpl in Hfresh.
  set (id := project_import_rq_id pk) in *.
  set (name := "/tmp/" ++ ("cvat_" ++ pk) ++ "_" ++ pretty (Z.to_N (w_next w))) in *.
  set (J := mkJob Queued {[ "tmp_file" := PStr name; "tmp_file_descriptor" := PInt (w_next w) ]}
              None PNone "dm.project.import_dataset_as_project" [pk; name; fmt] None None).
  assert (E1 : step1 = (Resp 202 BNone, set_queue
     (mkWorld (w_queue w) ({[ name ]} ∪ w_files w) ({[ w_next w ]} ∪ w_fds w) (w_next w + 1))
     (<[id := J]> (w_queue w)))).
  { unfold step1, view, project_dataset. simpl. rewrite Hq.
    unfold import_project_dataset. rewrite Hfmt, Hen. simpl.
    unfold fetch_job. fold id. rewrite Hnone. destruct (req_file req); [|contradiction].
    reflexivity. }
  split; [rewrite E1; reflexivity|].
  unfold step2, w2, view. rewrite E1. simpl snd.
  assert (Hqd : forall J', delete id (<[id := J']> (<[id := J]> (w_queue w))) = w_queue w).
  { intros J'. rewrite delete_insert_eq, delete_insert_eq. apply delete_id. exact Hnone. }
  assert (Hfiles : ({[name]} ∪ w_files w) ∖ {[name]} = w_files w)
    by (apply leibniz_equiv; set_solver).
  assert (Hfds : ({[w_next w]} ∪ w_fds w) ∖ {[w_next w]} = w_fds w)
    by (apply leibniz_equiv; set_solver).
  unfold project_dataset. simpl. rewrite Haction. simpl.
  unfold project_import_status. fold id. unfold fetch_job.
  destruct outcome as [fm|].
  - unfold worker_fail. simpl. rewrite lookup_insert_eq. simpl. rewrite rq_handler_queue.
    simpl. rewrite lookup_insert_eq. simpl.
    rewrite (cleanup_tmp_meta _ name (w_next w)) by (simpl; first [reflexivity | set_solver]).
    split; [reflexivity|]. simpl. rewrite Hqd. split; [reflexivity|]. split; assumption.
  - unfold worker_finish. simpl. rewrite lookup_insert_eq. simpl.
    rewrite lookup_insert_eq. simpl.
    rewrite (cleanup_tmp_meta _ name (w_next w)) by (simpl; first [reflexivity | set_solver]).
    split; [reflexivity|]. simpl. rewrite Hqd. split; [reflexivity|]. split; assumption.
Qed.

Lemma project_dataset_import_round_trip_witness :
  w_files (snd (project_dataset 0 0 [] ex_formats (fun _ => "") "GET"
                  {[ "action" := "import_status" ]} ex_project "1" ex_request
                  (worker_finish "/api/project/1/dataset_import" PNone
                     (snd (project_dataset 0 0 [] ex_formats (fun _ => "") "POST"
                             {[ "format" := "CVAT 1.1" ]} ex_project "1" ex_request
                             (mkWorld ∅ ∅ ∅ 0))))))
  = ∅.
Proof.
  pose proof (project_dataset_import_round_trip 0 0 [] ex_formats (fun _ => "")
    {[ "format" := "CVAT 1.1" ]} {[ "action" := "import_status" ]} ex_project ex_request
    "1" "CVAT 1.1" (mkFormat "CVAT 1.1" true) (mkWorld ∅ ∅ ∅ 0) None PNone
    eq_refl eq_refl eq_refl eq_refl eq_refl ltac:(discriminate)
    ltac:(apply not_elem_of_empty) ltac:(apply not_elem_of_empty)) as H.
  cbv zeta in H. destruct H as [_ [_ [_ [H _]]]]. exact H.
Defined.

(** When an import view enqueues (202), the job stored under its id records
    exactly the file name and the descriptor [mkstemp] just returned, both
    exist afterwards, and so the job satisfies [import_tmp_ok]. *)
Theorem import_enqueue_establishes_tmp_ok (import_formats : list format_desc)
    (av_clean : string -> bool) (req : request) (rq_id rq_func pk fmt : string) (w : world)
    (Hnone : w_queue w !! rq_id = None) :
  let tfd := fst (fst (mkstemp ("cvat_" ++ pk) w)) in
  let filename := snd (fst (mkstemp ("cvat_" ++ pk) w)) in
  let recorded (w' : world) :=
    (exists j, w_queue w' !! rq_id = Some j /\
       job_meta j = {[ "tmp_file" := PStr filename; "tmp_file_descriptor" := PInt tfd ]} /\
       job_func j = rq_func /\ job_args j = [pk; filename; fmt]) /\
    filename ∈ w_files w' /\ tfd ∈ w_fds w' /\ import_tmp_ok w' rq_id in
  (fst (import_annotations import_formats av_clean req rq_id rq_func pk fmt w) = Resp 202 BNone ->
   recorded (snd (import_annotations import_formats av_clean req rq_id rq_func pk fmt w))) /\
  (fst (import_project_dataset import_formats req rq_id rq_func pk fmt w) = Resp 202 BNone ->
   recorded (snd (import_project_dataset import_formats req rq_id rq_func pk fmt w))).
Proof.
  intros tfd filename recorded.
  assert (Hok : forall args,
    args = [pk; filename; fmt] ->
    recorded
      (set_queue
         (mkWorld (w_queue w) ({[ filename ]} ∪ w_files w) ({[ tfd ]} ∪ w_fds w) (w_next w + 1))
         (<[rq_id := mkJob Queued
             {[ "tmp_file" := PStr filename; "tmp_file_descriptor" := PInt tfd ]}
             None PNone rq_func args None None]> (w_queue w)))).
  { intros args ->. unfold recorded. split; [|split; [|split]].
    - eexists. simpl. rewrite lookup_insert_eq. split; [reflexivity|]. auto.
    - simpl. set_solver.
    - simpl. set_solver.
    - intros j Hj. simpl in Hj. rewrite lookup_insert_eq in Hj. injection Hj as <-.
      exists filename, tfd. simpl.
      rewrite lookup_insert_eq, lookup_insert_ne, lookup_singleton_eq by discriminate.
      split; [reflexivity|]. split; [reflexivity|]. split; set_solver. }
  unfold import_annotations, import_project_dataset, fetch_job. rewrite Hnone.
  destruct (lookup_format import_formats fmt) as [fd|]; [|split; discriminate].
  destruct (ENABLED fd); [|split; discriminate]. simpl.
  destruct (req_file req); [|split; discriminate].
  unfold tfd, filename in Hok. unfold mkstemp in Hok |- *. simpl in Hok |- *.
  split; [|intros _; apply Hok; reflexivity].
  destruct (av_clean _); [intros _; apply Hok; reflexivity | discriminate].
Qed.

Lemma import_enqueue_establishes_tmp_ok_witness :
  exists j, w_queue (snd (import_annotations ex_formats (fun _ => true) ex_request
                            "admin@/api/jobs/3/annotations/upload" "dm.task.import_job_annotations"
                            "3" "CVAT 1.1" (mkWorld ∅ ∅ ∅ 0)))
              !! "admin@/api/jobs/3/annotations/upload" = Some j /\
    job_meta j = {[ "tmp_file" := PStr "/tmp/cvat_3_0"; "tmp_file_descriptor" := PInt 0 ]} /\
    job_func j = "dm.task.import_job_annotations" /\
    job_args j = ["3"; "/tmp/cvat_3_0"; "CVAT 1.1"].
Proof.
  assert (Hn : w_queue (mkWorld ∅ ∅ ∅ 0) !! "admin@/api/jobs/3/annotations/upload" = None)
    by reflexivity.
  exact (proj1 (proj1 (import_enqueue_establishes_tmp_ok ex_formats (fun _ => true) ex_request
    "admin@/api/jobs/3/annotations/upload" "dm.task.import_job_annotations" "3" "CVAT 1.1"
    (mkWorld ∅ ∅ ∅ 0) Hn) eq_refl)).
Defined.



(** ** [_export_annotations]: what it touches and what it serves *)

Ltac export_cases :=
  unfold export_annotations, export_enqueue, delete_job, set_queue, enqueue_call,
    fetch_job, cancel_job;
  repeat (case_match; simpl in *; try discriminate).






(** [_export_annotations] changes no queue entry but the one under its own
    [rq_id], and never touches the files or descriptors. *)
Theorem export_annotations_frame (PROJECT_CACHE_TTL TASK_CACHE_TTL : Z)
    (export_formats : list format_desc) (strftime_ts : Z -> string)
    (inst : db_instance) (rq_id : string) (req : request)
    (format_name action callback filename : string) (w : world) :
  let w' := snd (export_annotations PROJECT_CACHE_TTL TASK_CACHE_TTL export_formats
                   strftime_ts inst rq_id req format_name action callback filename w) in
  (forall id', id' <> rq_id -> w_queue w' !! id' = w_queue w !! id') /\
  w_files w' = w_files w /\ w_fds w' = w_fds w.
Proof.
  intros w'. subst w'. export_cases;
    (split; [intros id' Hne|split; reflexivity]);
    repeat first [rewrite lookup_insert_ne by congruence
                 | rewrite lookup_delete_ne by congruence]; reflexivity.
Qed.



(** ** Import views: what they touch *)

Ltac import_cases :=
  unfold import_annotations, import_project_dataset, project_import_status, project_dataset,
    cleanup_tmp, os_close, os_remove, mkstemp, delete_job, set_queue, enqueue_call, fetch_job;
  repeat (case_match; simpl in *; try discriminate; simplify_eq).

(** [_import_annotations] and [_import_project_dataset] change no queue
    entry but the one under their own [rq_id]. *)
Theorem import_views_frame (import_formats : list format_desc) (av_clean : string -> bool)
    (req : request) (rq_id rq_func pk fmt : string) (w : world) (id' : string)
    (Hne : id' <> rq_id) :
  w_queue (snd (import_annotations import_formats av_clean req rq_id rq_func pk fmt w)) !! id'
  = w_queue w !! id' /\
  w_queue (snd (import_project_dataset import_formats req rq_id rq_func pk fmt w)) !! id'
  = w_queue w !! id'.
Proof.
  split; import_cases;
    repeat first [rewrite lookup_insert_ne by congruence
                 | rewrite lookup_delete_ne by congruence]; reflexivity.
Qed.

Lemma import_views_frame_witness :
  w_queue (snd (import_annotations ex_formats (fun _ => true) ex_request
                  "admin@/api/tasks/1/annotations/upload" "dm.task.import_task_annotations"
                  "1" "CVAT 1.1" (ex_import_world "/api/project/1/dataset_import" Started None)))
    !! "/api/project/1/dataset_import"
  = Some (ex_import_job Started None).
Proof.
  exact (proj1 (import_views_frame ex_formats (fun _ => true) ex_request
    "admin@/api/tasks/1/annotations/upload" "dm.task.import_task_annotations" "1" "CVAT 1.1"
    (ex_import_world "/api/project/1/dataset_import" Started None)
    "/api/project/1/dataset_import" ltac:(discriminate))).
Defined.

(** ** [{f.DISPLAY_NAME: f for f in formats}.get(name)] *)

Fixpoint find_first (p : format_desc -> bool) (l : list format_desc) : option format_desc :=
  match l with
  | [] => None
  | f :: l' => if p f then Some f else find_first p l'
  end.

Lemma find_first_app (p : format_desc -> bool) (l1 l2 : list format_desc) :
  find_first p (l1 ++ l2)%list
  = match find_first p l1 with Some f => Some f | None => find_first p l2 end.
Proof. induction l1 as [|f l1 IH]; simpl; [reflexivity|]. destruct (p f); auto. Qed.

Lemma lookup_format_fold (fmts : list format_desc) (name : string) (acc : option format_desc) :
  fold_left (fun acc f => if String.eqb (DISPLAY_NAME f) name then Some f else acc) fmts acc
  = match find_first (fun f => String.eqb (DISPLAY_NAME f) name) (rev fmts) with
    | Some f => Some f
    | None => acc
    end.
Proof.
  revert acc. induction fmts as [|f fmts IH]; intros acc; [reflexivity|].
  simpl. rewrite IH, find_first_app. simpl.
  destruct (find_first _ (rev fmts)); [reflexivity|].
  destruct (String.eqb (DISPLAY_NAME f) name); reflexivity.
Qed.

Lemma find_first_some (p : format_desc -> bool) (l : list format_desc) (f : format_desc) :
  find_first p l = Some f <->
  exists l1 l2, l = (l1 ++ f :: l2)%list /\ p f = true /\ Forall (fun g => p g = false) l1.
Proof.
  split.
  - induction l as [|g l IH]; simpl; [discriminate|].
    destruct (p g) eqn:E.
    + intros [= <-]. exists [], l. split; [reflexivity|]. split; [exact E|constructor].
    + intros H. destruct (IH H) as (l1 & l2 & -> & Hp & Hf).
      exists (g :: l1), l2. split; [reflexivity|]. split; [exact Hp|constructor; assumption].
  - intros (l1 & l2 & -> & Hp & Hf). induction Hf as [|g l1 Hg _ IH]; simpl.
    + rewrite Hp. reflexivity.
    + rewrite Hg. exact IH.
Qed.

Lemma find_first_none (p : format_desc -> bool) (l : list format_desc) :
  find_first p l = None <-> Forall (fun g => p g = false) l.
Proof.
  split.
  - induction l as [|g l IH]; simpl; [constructor|].
    destruct (p g) eqn:E; [discriminate|]. intros H. constructor; auto.
  - induction 1 as [|g l Hg _ IH]; simpl; [reflexivity|]. rewrite Hg. exact IH.
Qed.

Lemma lookup_format_rev (fmts : list format_desc) (name : string) :
  lookup_format fmts name = find_first (fun f => String.eqb (DISPLAY_NAME f) name) (rev fmts).
Proof.
  unfold lookup_format. rewrite lookup_format_fold.
  destruct (find_first _ (rev fmts)); reflexivity.
Qed.

(** The format a name selects is the last registered format with that
    display name; there is none exactly when no registered format has
    it. *)
Theorem lookup_format_last (fmts : list format_desc) (name : string) (f : format_desc) :
  (lookup_format fmts name = Some f <->
   exists l1 l2, fmts = (l1 ++ f :: l2)%list /\ DISPLAY_NAME f = name /\
                 Forall (fun g => DISPLAY_NAME g <> name) l2) /\
  (lookup_format fmts name = None <-> Forall (fun g => DISPLAY_NAME g <> name) fmts).
Proof.
  assert (Hneq : forall l : list format_desc,
            Forall (fun g => String.eqb (DISPLAY_NAME g) name = false) l <->
            Forall (fun g => DISPLAY_NAME g <> name) l).
  { intros l. split; intros H; (eapply Forall_impl; [exact H|]); intros g; apply String.eqb_neq. }
  rewrite lookup_format_rev. split.
  - rewrite find_first_some. split.
    + intros (r1 & r2 & Hr & Hp & Hf). exists (rev r2), (rev r1).
      split; [|split; [apply String.eqb_eq, Hp | apply Forall_rev, Hneq, Hf]].
      rewrite <- (rev_involutive fmts), Hr, rev_app_distr. simpl.
      rewrite <- app_assoc. reflexivity.
    + intros (l1 & l2 & -> & Hn & Hl2). exists (rev l2), (rev l1).
      split; [rewrite rev_app_distr; simpl; rewrite <- app_assoc; reflexivity|].
      split; [apply String.eqb_eq, Hn|]. apply Hneq, Forall_rev, Hl2.
  - rewrite find_first_none, Hneq. split; [intros H; apply Forall_rev in H;
      rewrite rev_involutive in H; exact H | apply Forall_rev].
Qed.

(** ** [DataChunkGetter]: what a validated getter can do *)

Lemma str_in_data_types (t : string) :
  str_in t ["chunk"; "frame"; "preview"; "context_image"] = true ->
  t = "chunk" \/ t = "frame" \/ t = "preview" \/ t = "context_image".
Proof.
  unfold str_in. simpl.
  destruct (String.eqb_spec t "chunk"); [auto|].
  destruct (String.eqb_spec t "frame"); [auto|].
  destruct (String.eqb_spec t "preview"); [auto|].
  destruct (String.eqb_spec t "context_image"); [auto|]. discriminate.
Qed.

Lemma chunk_getter_init_inv (py_int : string -> option Z)
    (data_type data_num : option string) (data_quality dim : string) (g : chunk_getter) :
  chunk_getter_init py_int data_type data_num data_quality dim = inr g ->
  data_type = Some (cg_type g) /\
  (cg_type g = "chunk" \/ cg_type g = "frame" \/ cg_type g = "preview"
   \/ cg_type g = "context_image") /\
  (cg_type g = "chunk" \/ cg_type g = "frame" ->
   exists s n, data_num = Some s /\ py_int s = Some n /\ cg_number g = Some n).
Proof.
  intros H. unfold chunk_getter_init in H.
  destruct data_type as [t|]; [|discriminate].
  destruct (negb (truthy (Some t)) || negb (str_in t ["chunk"; "frame"; "preview"; "context_image"]))
    eqn:E1; [discriminate|].
  apply orb_false_iff in E1 as [_ E1]. apply negb_false_iff, str_in_data_types in E1.
  destruct ((String.eqb t "chunk" || String.eqb t "frame") && negb (truthy data_num))
    eqn:E2; [discriminate|].
  destruct ((String.eqb t "chunk" || String.eqb t "frame")
            && negb (str_in data_quality ["compressed"; "original"])); [discriminate|].
  destruct data_num as [s|].
  - destruct (truthy (Some s)) eqn:E4.
    + destruct (py_int s) as [n|] eqn:E5; [|discriminate].
      injection H as <-. simpl. split; [reflexivity|]. split; [exact E1|].
      intros _. exists s, n. auto.
    + injection H as <-. simpl. split; [reflexivity|]. split; [exact E1|].
      try rewrite E4 in E2. intros [-> | ->]; simpl in E2; discriminate.
  - injection H as <-. simpl. split; [reflexivity|]. split; [exact E1|].
    intros [-> | ->]; discriminate.
Qed.

(** A getter [__init__] accepts never reaches the "unknown data type" answer
    of [__call__], and a [chunk] or [frame] getter never raises the
    [TypeError] of comparing with a missing number. *)
Theorem chunk_getter_validated (py_int : string -> option Z) (get_chunk_number : Z -> Z)
    (related_files : Z -> option (list string))
    (data_type data_num : option string) (data_quality dim : string) (g : chunk_getter)
    (Hinit : chunk_getter_init py_int data_type data_num data_quality dim = inr g) :
  (forall start stop has_data m,
     chunk_getter_call get_chunk_number related_files g start stop has_data
     <> inr (ServeResp 400 m)) /\
  (cg_type g = "chunk" \/ cg_type g = "frame" ->
   forall start stop has_data,
     chunk_getter_call get_chunk_number related_files g start stop has_data <> inl TypeError).
Proof.
  destruct (chunk_getter_init_inv _ _ _ _ _ _ Hinit) as (_ & Ht & Hn).
  destruct g as [t num q d]. simpl in *. split.
  - intros start stop has_data m.
    unfold chunk_getter_call. simpl.
    destruct Ht as [-> | [-> | [-> | ->]]]; simpl;
      repeat (case_match; simpl; try congruence).
  - intros Hcf start stop has_data.
    destruct (Hn Hcf) as (s & n & _ & _ & ->).
    unfold chunk_getter_call, py_between. simpl.
    destruct Hcf as [-> | ->]; simpl; repeat (case_match; simpl; try congruence).
Qed.

Lemma chunk_getter_validated_witness :
  chunk_getter_call (fun n => n / 10) (fun _ => None)
    (mkGetter "frame" (Some 12) ORIGINAL "2d") 0 30 true
  <> inl TypeError.
Proof.
  apply (proj2 (chunk_getter_validated (fun s => if String.eqb s "12" then Some 12 else None)
    (fun n => n / 10) (fun _ => None) (Some "frame") (Some "12") "original" "2d"
    (mkGetter "frame" (Some 12) ORIGINAL "2d") eq_refl)).
  right. reflexivity.
Defined.

(** [int(number)] failing on a truthy [number] makes [__init__] raise the
    [ValueError] (an HTTP 500), for every data type it otherwise accepts. *)
Theorem chunk_getter_init_bad_number (py_int : string -> option Z)
    (t s data_quality dim : string)
    (Ht : str_in t ["chunk"; "frame"; "preview"; "context_image"] = true)
    (Hs : s <> "") (Hint : py_int s = None)
    (Hq : (String.eqb t "chunk" || String.eqb t "frame") = true ->
          str_in data_quality ["compressed"; "original"] = true) :
  chunk_getter_init py_int (Some t) (Some s) data_quality dim = inl ValueError.
Proof.
  assert (Htr : truthy (Some t) = true).
  { unfold truthy. destruct (String.eqb t "") eqn:Et; [|reflexivity].
    apply String.eqb_eq in Et. subst t. discriminate Ht. }
  assert (Hsr : truthy (Some s) = true)
    by (unfold truthy; apply String.eqb_neq in Hs; rewrite Hs; reflexivity).
  unfold chunk_getter_init. rewrite Htr, Ht, Hsr. cbn [negb orb andb].
  destruct (String.eqb t "chunk" || String.eqb t "frame") eqn:Ecf; cbn [negb orb andb].
  - rewrite (Hq eq_refl). cbn [negb andb]. rewrite Hint. reflexivity.
  - rewrite Hint. reflexivity.
Qed.

Lemma chunk_getter_init_bad_number_witness :
  chunk_getter_init (fun _ => None) (Some "chunk") (Some "abc") "compressed" "2d"
  = inl ValueError.
Proof.
  apply chunk_getter_init_bad_number; [reflexivity | discriminate | reflexivity |
    intros _; reflexivity].
Defined.

Lemma chunk_getter_call_in_range_witness :
  (0 / 10 <= 2 <= 30 / 10)%Z.
Proof.
  exact (chunk_getter_call_in_range (fun n => n / 10) (fun _ => None)
    (mkGetter "chunk" (Some 2) COMPRESSED "2d") 0 30 true (ServeChunk 2 COMPRESSED) eq_refl).
Defined.

(** ** [ServerViewSet.plugins] *)

Lemma str_in_spec (x : string) (l : list string) : str_in x l = true <-> In x l.
Proof.
  unfold str_in. rewrite existsb_exists. split.
  - intros [y [Hy Heq]]. apply String.eqb_eq in Heq. subst. exact Hy.
  - intros H. exists x. split; [exact H | apply String.eqb_refl].
Qed.

Lemma strtobool_spec (v : string) :
  (strtobool v = inr true <-> In (str_lower v) ["y"; "yes"; "t"; "true"; "on"; "1"]) /\
  (forall e, strtobool v = inl e <->
     e = ValueError /\ ~ In (str_lower v) ["y"; "yes"; "t"; "true"; "on"; "1"] /\
     ~ In (str_lower v) ["n"; "no"; "f"; "false"; "off"; "0"]).
Proof.
  unfold strtobool.
  destruct (str_in (str_lower v) ["y"; "yes"; "t"; "true"; "on"; "1"]) eqn:Et.
  - apply str_in_spec in Et. split; [tauto|]. intros e. split; [discriminate|tauto].
  - assert (Ht : ~ In (str_lower v) ["y"; "yes"; "t"; "true"; "on"; "1"])
      by (rewrite <- str_in_spec; congruence).
    destruct (str_in (str_lower v) ["n"; "no"; "f"; "false"; "off"; "0"]) eqn:Ef.
    + apply str_in_spec in Ef. split; [split; [discriminate|tauto]|].
      intros e. split; [discriminate|tauto].
    + assert (Hf : ~ In (str_lower v) ["n"; "no"; "f"; "false"; "off"; "0"])
        by (rewrite <- str_in_spec; congruence).
      split; [split; [discriminate|tauto]|].
      intros e. split; [intros [= <-]; tauto | intros [-> _]; reflexivity].
Qed.

Lemma strtobool_env (environ : string -> option string) (k : string) :
  (strtobool (match environ k with Some v => v | None => "0" end) = inr true <->
   exists v, environ k = Some v /\ In (str_lower v) ["y"; "yes"; "t"; "true"; "on"; "1"]) /\
  (forall e, strtobool (match environ k with Some v => v | None => "0" end) = inl e <->
   e = ValueError /\ exists v, environ k = Some v /\
     ~ In (str_lower v) ["y"; "yes"; "t"; "true"; "on"; "1"] /\
     ~ In (str_lower v) ["n"; "no"; "f"; "false"; "off"; "0"]).
Proof.
  destruct (environ k) as [v|].
  - destruct (strtobool_spec v) as [H1 H2]. rewrite H1. split.
    + split; [intros H; exists v; auto | intros [v' [[= <-] H]]; exact H].
    + intros e. rewrite H2. split.
      * intros (He & Ht & Hf). split; [exact He|]. exists v. auto.
      * intros (He & v' & [= <-] & Ht & Hf). auto.
  - split; [split; [discriminate | intros [v [H _]]; discriminate]|].
    intros e. split; [discriminate | intros (_ & v & H & _); discriminate].
Qed.

(** [plugins] reports [GIT_INTEGRATION] and [PREDICT] as the installed
    apps, and [ANALYTICS] ([MODELS]) exactly when [CVAT_ANALYTICS]
    ([CVAT_SERVERLESS]) is set to one of y, yes, t, true, on, 1 in any
    case; an unset variable counts as false, and the view raises
    [ValueError] exactly when one of the two is set to a word outside both
    of [strtobool]'s lists. *)
Theorem plugins_flags (environ : string -> option string) (is_installed : string -> bool) :
  (forall r, plugins environ is_installed = inr r ->
     GIT_INTEGRATION r = is_installed "cvat.apps.dataset_repo" /\
     PREDICT r = is_installed "cvat.apps.training" /\
     (ANALYTICS r = true <-> exists v, environ "CVAT_ANALYTICS" = Some v /\
                             In (str_lower v) ["y"; "yes"; "t"; "true"; "on"; "1"]) /\
     (MODELS r = true <-> exists v, environ "CVAT_SERVERLESS" = Some v /\
                          In (str_lower v) ["y"; "yes"; "t"; "true"; "on"; "1"])) /\
  (forall e, plugins environ is_installed = inl e ->
     e = ValueError /\
     exists k v, (k = "CVAT_ANALYTICS" \/ k = "CVAT_SERVERLESS") /\ environ k = Some v /\
       ~ In (str_lower v) ["y"; "yes"; "t"; "true"; "on"; "1"] /\
       ~ In (str_lower v) ["n"; "no"; "f"; "false"; "off"; "0"]) /\
  ((exists k v, (k = "CVAT_ANALYTICS" \/ k = "CVAT_SERVERLESS") /\ environ k = Some v /\
       ~ In (str_lower v) ["y"; "yes"; "t"; "true"; "on"; "1"] /\
       ~ In (str_lower v) ["n"; "no"; "f"; "false"; "off"; "0"]) ->
   plugins environ is_installed = inl ValueError).
Proof.
  destruct (strtobool_env environ "CVAT_ANALYTICS") as [HA1 HA2].
  destruct (strtobool_env environ "CVAT_SERVERLESS") as [HM1 HM2].
  unfold plugins. cbv zeta.
  destruct (strtobool (match environ "CVAT_ANALYTICS" with Some v => v | None => "0" end))
    as [ea|a] eqn:EA.
  - destruct (proj1 (HA2 ea) eq_refl) as [-> HA].
    split; [discriminate|]. split; [|intros _; reflexivity].
    intros e [= <-]. split; [reflexivity|].
    destruct HA as (v & Hv & Ht & Hf). exists "CVAT_ANALYTICS", v. auto.
  - destruct (strtobool (match environ "CVAT_SERVERLESS" with Some v => v | None => "0" end))
      as [em|m] eqn:EM.
    + destruct (proj1 (HM2 em) eq_refl) as [-> HM].
      split; [discriminate|]. split; [|intros _; reflexivity].
      intros e [= <-]. split; [reflexivity|].
      destruct HM as (v & Hv & Ht & Hf). exists "CVAT_SERVERLESS", v. auto.
    + split; [|split; [discriminate|]].
      * intros r [= <-]. rewrite <- HA1, <- HM1.
        destruct a, m; simpl; repeat split; congruence.
      * intros (k & v & [-> | ->] & Hv & Ht & Hf).
        -- assert (Hb : (inr a : exn + bool) = inl ValueError)
             by (apply HA2; split; [reflexivity|]; exists v; auto).
           discriminate.
        -- assert (Hb : (inr m : exn + bool) = inl ValueError)
             by (apply HM2; split; [reflexivity|]; exists v; auto).
           discriminate.
Qed.

(** ** [ServerViewSet.logs] and [ServerViewSet.exception] *)

Lemma dict_merge_lookup (a b : gmap string pyval) (k : string) :
  dict_merge a b !! k = match b !! k with Some v => Some v | None => a !! k end.
Proof.
  unfold dict_merge. destruct (b !! k) eqn:E.
  - apply lookup_union_Some_l, E.
  - rewrite lookup_union_r by exact E. reflexivity.
Qed.

(** [logs] answers 201 with the events unchanged and logs one info record
    per event, in order, on the logger its [job_id] or [task_id] selects:
    the record is the event with its [username] replaced by the request
    user's.  [exception] answers 201 with the data and logs one error
    record: the data with [username] and [name] set to the request user
    and "Send exception". *)
Theorem server_log_records (username : string) (events : list (gmap string pyval))
    (data : gmap string pyval) :
  fst (fst (logs username events)) = 201 /\ snd (fst (logs username events)) = events /\
  length (snd (logs username events)) = length events /\
  (forall i e, events !! i = Some e ->
     exists d, snd (logs username events) !! i = Some (route_log e, LInfo, d) /\
       d !! "username" = Some (PStr username) /\
       forall k, k <> "username" -> d !! k = e !! k) /\
  fst (fst (exception_view username data)) = 201 /\
  snd (fst (exception_view username data)) = data /\
  exists d, snd (exception_view username data) = (route_log data, LError, d) /\
    d !! "username" = Some (PStr username) /\ d !! "name" = Some (PStr "Send exception") /\
    forall k, k <> "username" -> k <> "name" -> d !! k = data !! k.
Proof.
  split; [reflexivity|]. split; [reflexivity|].
  split; [apply length_map|]. split.
  - intros i e Hi. simpl. rewrite list_lookup_fmap, Hi. simpl. eexists. split; [reflexivity|].
    split.
    + rewrite dict_merge_lookup, lookup_singleton_eq. reflexivity.
    + intros k Hk. rewrite dict_merge_lookup, lookup_singleton_ne by congruence. reflexivity.
  - split; [reflexivity|]. split; [reflexivity|]. eexists. split; [reflexivity|].
    rewrite !dict_merge_lookup. split; [|split].
    + rewrite lookup_insert_eq. reflexivity.
    + reflexivity.
    + intros k Hk1 Hk2. rewrite dict_merge_lookup. rewrite lookup_insert_ne, lookup_singleton_ne by congruence.
      reflexivity.
Qed.

(** ** [UserViewSet.get_serializer_class] *)

(** A user who is not staff (and whose id, as every database id, is
    positive) gets the full [UserSerializer] exactly for a read-only method
    on their own record: the [self] action, or a [pk] that parses to their
    id; anything else gets [BasicUserSerializer]. A [pk] that does not
    parse as an integer raises [ValueError], even for the [self] action. *)
Theorem user_serializer_choice (py_int : string -> option Z) (user_id : Z)
    (pk : option string) (action method : string) (Hid : 0 < user_id) :
  (user_get_serializer_class py_int false user_id pk action method = inr UserSerializer <->
   In method SAFE_METHODS /\
   ((action = "self" /\ forall s, pk = Some s -> py_int s <> None) \/
    exists s, pk = Some s /\ py_int s = Some user_id)) /\
  (user_get_serializer_class py_int false user_id pk action method = inl ValueError <->
   exists s, pk = Some s /\ py_int s = None) /\
  (forall e, user_get_serializer_class py_int false user_id pk action method = inl e ->
   e = ValueError).
Proof.
  unfold user_get_serializer_class.
  destruct (match pk with Some s => py_int s | None => Some 0 end) as [n|] eqn:Epk.
  all: cbn iota beta zeta.
  - assert (Hok : forall s, pk = Some s -> py_int s <> None)
      by (intros s ->; congruence).
    assert (Hv : ~ exists s, pk = Some s /\ py_int s = None)
      by (intros (s & -> & Hs); congruence).
    destruct ((Z.eqb n user_id || String.eqb action "self") && str_in method SAFE_METHODS)
      eqn:E.
    + split; [|split; [split; [discriminate|intros H; contradiction] | intros e; discriminate]].
      apply andb_true_iff in E as [E1 E2]. apply str_in_spec in E2.
      split; [intros _; split; [exact E2|] | reflexivity].
      apply orb_true_iff in E1 as [E1|E1].
      * right. apply Z.eqb_eq in E1. subst n. destruct pk as [s|]; [|simpl in Epk; injection Epk; lia].
        exists s. auto.
      * left. apply String.eqb_eq in E1. auto.
    + split; [|split; [split; [discriminate|intros H; contradiction] | intros e; discriminate]].
      split; [discriminate|]. intros [Hm Hs]. apply str_in_spec in Hm.
      rewrite Hm, andb_true_r in E. apply orb_false_iff in E as [E1 E2].
      destruct Hs as [[-> _] | (s & -> & Hs)].
      * rewrite String.eqb_refl in E2. discriminate.
      * rewrite Hs in Epk. injection Epk as ->. rewrite Z.eqb_refl in E1. discriminate.
  - destruct pk as [s|]; [|discriminate].
    split; [split; [discriminate|] | split; [split; [intros _; exists s; auto | reflexivity]
                                           | intros e [= <-]; reflexivity]].
    intros [_ [[_ H] | (s' & [= <-] & H)]]; [exfalso; exact (H s eq_refl Epk) | congruence].
Qed.

Lemma user_serializer_choice_witness :
  user_get_serializer_class (fun s => if String.eqb s "5" then Some 5 else None) false 5
    (Some "5") "retrieve" "PATCH" <> inr UserSerializer.
Proof.
  intros H.
  apply (proj1 (proj1 (user_serializer_choice (fun s => if String.eqb s "5" then Some 5 else None)
    5 (Some "5") "retrieve" "PATCH" ltac:(lia)))) in H.
  destruct H as [Hm _]. simpl in Hm. intuition discriminate.
Defined.

(** ** [CloudStorageViewSet.get_queryset] *)

(** The queryset is the base one (for the [list] action, after the
    permission filter) narrowed to the storages of the requested
    [provider_type] when one is given; an empty or absent [provider_type]
    narrows nothing, and an unsupported one raises [ValidationError]
    whatever the action. *)
Theorem cloud_queryset_filter (providers : list string)
    (perm_filter : list cloud_storage -> list cloud_storage)
    (action : string) (provider_type : option string) (qs : list cloud_storage) :
  let base := if String.eqb action "list" then perm_filter qs else qs in
  match provider_type with
  | None | Some "" => cloud_get_queryset providers perm_filter action provider_type qs = inr base
  | Some p =>
      (In p providers ->
       exists l, cloud_get_queryset providers perm_filter action provider_type qs = inr l /\
         forall s, In s l <-> In s base /\ cs_provider s = p) /\
      (~ In p providers ->
       cloud_get_queryset providers perm_filter action provider_type qs
       = inl (ValidationError "Unsupported type of cloud provider"))
  end.
Proof.
  intros base. unfold cloud_get_queryset. fold base.
  destruct provider_type as [p|]; [|reflexivity].
  destruct (String.eqb_spec p "") as [->|Hp]; [reflexivity|].
  assert (Ht : truthy (Some p) = true)
    by (unfold truthy; apply String.eqb_neq in Hp; rewrite Hp; reflexivity).
  assert (Hr : match p with "" => cloud_get_queryset providers perm_filter action (Some p) qs = inr base
               | _ => (In p providers -> exists l, cloud_get_queryset providers perm_filter action (Some p) qs = inr l /\
                        forall s, In s l <-> In s base /\ cs_provider s = p) /\
                      (~ In p providers -> cloud_get_queryset providers perm_filter action (Some p) qs
                        = inl (ValidationError "Unsupported type of cloud provider")) end
              = ((In p providers -> exists l, cloud_get_queryset providers perm_filter action (Some p) qs = inr l /\
                        forall s, In s l <-> In s base /\ cs_provider s = p) /\
                 (~ In p providers -> cloud_get_queryset providers perm_filter action (Some p) qs
                        = inl (ValidationError "Unsupported type of cloud provider"))))
    by (destruct p; [contradiction | reflexivity]).
  unfold cloud_get_queryset in Hr. fold base in Hr. rewrite Hr. clear Hr.
  rewrite Ht. simpl. split.
  - intros Hin. apply str_in_spec in Hin. rewrite Hin. eexists. split; [reflexivity|].
    intros s. rewrite <- !list_elem_of_In, list_elem_of_filter.
    destruct (String.eqb_spec (cs_provider s) p); simpl; tauto.
  - intros Hn. rewrite str_in_false by exact Hn. reflexivity.
Qed.

(** ** [TaskViewSet.perform_destroy]: what it leaves alone *)

(** Destroying a task leaves every other task row, every file outside the
    task's directory and its data's directory, every data record but the
    task's own, and every project but the task's own as they were; it
    creates no file; and the task's project, if any, gets [updated_date]
    set to the destruction time. *)
Theorem perform_destroy_frame (task_dirname data_dirname : Z -> string)
    (t : Z) (row : task_row) (now : Z) (s : db) :
  let s' := perform_destroy task_dirname data_dirname t row now s in
  (forall t', t' <> t -> db_tasks s' !! t' = db_tasks s !! t') /\
  db_fs s' ⊆ db_fs s /\
  (forall p, path_under (task_dirname t) p = false ->
     (forall d, t_data row = Some d -> path_under (data_dirname d) p = false) ->
     (p ∈ db_fs s' <-> p ∈ db_fs s)) /\
  (forall d, t_data row <> Some d -> (d ∈ db_datas s' <-> d ∈ db_datas s)) /\
  (forall pr, t_project row <> Some pr ->
     db_project_updated s' !! pr = db_project_updated s !! pr) /\
  (forall pr, t_project row = Some pr -> db_project_updated s' !! pr = Some now).
Proof.
  intros s'. subst s'. unfold perform_destroy.
  assert (Hproj : (forall pr, t_project row <> Some pr ->
     (match t_project row with Some p => <[p := now]> (db_project_updated s)
      | None => db_project_updated s end) !! pr = db_project_updated s !! pr) /\
    (forall pr, t_project row = Some pr ->
     (match t_project row with Some p => <[p := now]> (db_project_updated s)
      | None => db_project_updated s end) !! pr = Some now)).
  { destruct (t_project row) as [p|]; split; intros pr Hpr.
    - apply lookup_insert_ne. congruence.
    - injection Hpr as <-. apply lookup_insert_eq.
    - reflexivity.
    - discriminate. }
  destruct Hproj as [Hp1 Hp2].
  destruct (t_data row) as [d|] eqn:Hd;
    [destruct (negb (data_referenced (delete t (db_tasks s)) d)) eqn:Hr|]; simpl.
  all: split; [intros t' Hne; apply lookup_delete_ne; congruence|].
  all: split; [intros p; rewrite ?elem_of_rmtree; tauto|].
  all: split; [intros p H1 H2; rewrite ?elem_of_rmtree;
               try rewrite (H2 d eq_refl); rewrite H1; tauto|].
  all: split; [|split; assumption].
  all: intros d' Hd'; first [reflexivity | set_solver].
Qed.

Lemma perform_destroy_frame_witness :
  "/data/tasks/2/raw" ∈ db_fs (perform_destroy (fun n => "/data/tasks/" ++ pretty (Z.to_N n))
                                 (fun n => "/data/data/" ++ pretty (Z.to_N n)) 1
                                 (mkTaskRow (Some 5) (Some 3)) 0
                                 (mkDb {[ 1 := mkTaskRow (Some 5) (Some 3) ]} {[ 5 ]} ∅
                                    {[ "/data/tasks/1/raw"; "/data/tasks/2/raw" ]})).
Proof.
  refine (proj2 (proj1 (proj2 (proj2 (perform_destroy_frame
    (fun n => "/data/tasks/" ++ pretty (Z.to_N n)) (fun n => "/data/data/" ++ pretty (Z.to_N n))
    1 (mkTaskRow (Some 5) (Some 3)) 0
    (mkDb {[ 1 := mkTaskRow (Some 5) (Some 3) ]} {[ 5 ]} ∅
       {[ "/data/tasks/1/raw"; "/data/tasks/2/raw" ]})))) "/data/tasks/2/raw" _ _) _).
  - reflexivity.
  - intros d [= <-]. reflexivity.
  - apply (bool_decide_eq_true_1 _ (Decision0 := _)). vm_compute. reflexivity.
Defined.

(** ** [ServerViewSet.share]: the listed path is normalized *)

Lemma split_slash_components (s : string) :
  Forall (fun c => has_slash c = false) (split_slash s).
Proof.
  induction s as [|x s IH]; simpl; [constructor; [reflexivity | constructor]|].
  destruct (Ascii.eqb x "/"%char) eqn:E; [constructor; [reflexivity | exact IH]|].
  destruct (split_slash s) as [|h t]; inversion IH as [|? ? Hh Ht]; subst.
  - constructor; [simpl; rewrite E; reflexivity | constructor].
  - constructor; [simpl; rewrite E, Hh; reflexivity | exact Ht].
Qed.

Lemma normpath_step_normal (n : nat) (acc : list string) (comp : string) :
  n <> 0%nat -> has_slash comp = false ->
  Forall (fun c => c <> "" /\ c <> "." /\ c <> ".." /\ has_slash c = false) acc ->
  Forall (fun c => c <> "" /\ c <> "." /\ c <> ".." /\ has_slash c = false)
    (normpath_step n acc comp).
Proof.
  intros Hn Hs Hacc. unfold normpath_step.
  destruct (String.eqb_spec comp ""); [exact Hacc|].
  destruct (String.eqb_spec comp "."); [exact Hacc|]. simpl.
  destruct (String.eqb_spec comp ".."); simpl.
  - apply Nat.eqb_neq in Hn. rewrite Hn. simpl.
    destruct acc as [|c acc]; [constructor|].
    inversion Hacc as [|? ? (Hc1 & Hc2 & Hc3 & Hc4) Ht]; subst.
    apply String.eqb_neq in Hc3. rewrite Hc3. exact Ht.
  - constructor; [auto | exact Hacc].
Qed.

Lemma normpath_fold_normal (n : nat) (l acc : list string) :
  n <> 0%nat -> Forall (fun c => has_slash c = false) l ->
  Forall (fun c => c <> "" /\ c <> "." /\ c <> ".." /\ has_slash c = false) acc ->
  Forall (fun c => c <> "" /\ c <> "." /\ c <> ".." /\ has_slash c = false)
    (fold_left (normpath_step n) l acc).
Proof.
  intros Hn Hl. revert acc. induction Hl as [|c l Hc Hl IH]; intros acc Hacc; simpl;
    [exact Hacc|].
  apply IH, normpath_step_normal; assumption.
Qed.

Lemma startswith_slash (s : string) :
  startswith s "/" = true -> exists s', s = String "/"%char s'.
Proof.
  unfold startswith. destruct s as [|c s']; [intros H; cbv in H; discriminate H|]. cbn [String.prefix].
  destruct (ascii_dec "/"%char c) as [<-|]; [eauto | discriminate].
Qed.

Lemma startswith_slash_cons (y : string) : startswith (String "/"%char y) "/" = true.
Proof. destruct y; reflexivity. Qed.

Lemma path_join_absolute (a b : string) :
  startswith a "/" = true -> startswith (path_join a b) "/" = true.
Proof.
  intros Ha. unfold path_join.
  destruct (startswith b "/") eqn:Hb; [exact Hb|].
  destruct (startswith_slash a Ha) as [a' ->]. simpl.
  destruct (endswith_slash (String "/"%char a')).
  - change (startswith (String "/"%char (a' ++ b)) "/" = true). apply startswith_slash_cons.
  - change (startswith (String "/"%char (a' ++ "/" ++ b)) "/" = true).
    apply startswith_slash_cons.
Qed.

(** Normalizing an absolute path leaves one or two leading slashes
    followed by components that are neither empty, nor [.], nor [..]. *)
Lemma normpath_absolute (x : string) :
  startswith x "/" = true ->
  exists n comps, (n = 1 \/ n = 2)%nat /\ normpath x = slashes n ++ join_slash comps /\
    Forall (fun c => c <> "" /\ c <> "." /\ c <> ".." /\ has_slash c = false) comps.
Proof.
  intros Hx. destruct (startswith_slash x Hx) as [x' Ex].
  unfold normpath. rewrite Hx. replace (String.eqb x "") with false by (subst x; reflexivity).
  set (n := if startswith x "//" && negb (startswith x "///") then 2%nat else 1%nat).
  assert (Hn : n = 1%nat \/ n = 2%nat)
    by (unfold n; destruct (startswith x "//" && negb (startswith x "///")); auto).
  assert (Hn0 : n <> 0%nat) by lia.
  set (comps := rev (fold_left (normpath_step n) (split_slash x) [])).
  assert (Hp : String.eqb (slashes n ++ join_slash comps) "" = false)
    by (destruct Hn as [-> | ->]; reflexivity).
  rewrite Hp. exists n, comps. split; [exact Hn|]. split; [reflexivity|].
  apply Forall_rev, normpath_fold_normal; [exact Hn0 | apply split_slash_components | constructor].
Qed.

(** *** [FileInfoSerializer] on the listing *)

Lemma drop_space_idem (l : list ascii) : drop_space (drop_space l) = drop_space l.
Proof.
  induction l as [|c l IH]; simpl; [reflexivity|].
  destruct (py_isspace c) eqn:E; [exact IH | simpl; rewrite E; reflexivity].
Qed.

Lemma drop_space_split (l : list ascii) : exists sp, l = app sp (drop_space l).
Proof.
  induction l as [|c l [sp IH]]; simpl; [exists []; reflexivity|].
  destruct (py_isspace c); [exists (c :: sp); simpl; f_equal; exact IH | exists []; reflexivity].
Qed.

Lemma drop_space_head (l : list ascii) :
  drop_space l = [] \/ exists c t, drop_space l = c :: t /\ py_isspace c = false.
Proof.
  induction l as [|c l IH]; simpl; [auto|].
  destruct (py_isspace c) eqn:E; [exact IH | right; eauto].
Qed.

(** [s.strip().strip() == s.strip()] *)
Lemma py_strip_idem (s : string) : py_strip (py_strip s) = py_strip s.
Proof.
  unfold py_strip. rewrite list_ascii_of_string_of_list_ascii.
  set (a := drop_space (list_ascii_of_string s)).
  assert (Hx : drop_space (rev (drop_space (rev a))) = rev (drop_space (rev a))).
  { destruct (drop_space_split (rev a)) as [sp Hsp].
    assert (Ha : a = app (rev (drop_space (rev a))) (rev sp)).
    { rewrite <- (rev_involutive a) at 1. rewrite Hsp at 1. apply rev_app_distr. }
    destruct (rev (drop_space (rev a))) as [|c t]; [reflexivity|].
    destruct (drop_space_head (list_ascii_of_string s)) as [H0 | (c' & t' & H1 & H2)].
    - fold a in H0. rewrite H0 in Ha. discriminate.
    - fold a in H1. rewrite H1 in Ha. simpl in Ha. injection Ha as <- _.
      simpl. rewrite H2. reflexivity. }
  rewrite Hx, rev_involutive, drop_space_idem. reflexivity.
Qed.

Lemma charfield_1024_inr (data v : string) :
  charfield_1024 data = inr v -> v = py_strip data /\ v <> "" /\ (String.length v <= 1024)%nat.
Proof.
  unfold charfield_1024. remember (py_strip data) as v0 eqn:Hv0.
  destruct (String.eqb data "" || String.eqb v0 "") eqn:E; [discriminate|].
  apply orb_false_iff in E as [_ E]. apply String.eqb_neq in E.
  destruct (Nat.ltb 1024 (String.length v0)) eqn:L; [discriminate|].
  apply Nat.ltb_ge in L. cbn [app].
  destruct (existsb _ _); intros H; [discriminate|]. injection H as <-. auto.
Qed.

Lemma file_info_validate_inr (name type : string) (v : string * string) :
  file_info_validate (name, type) = inr v ->
  v = (py_strip name, type) /\ py_strip name <> "" /\ (String.length (py_strip name) <= 1024)%nat.
Proof.
  unfold file_info_validate.
  destruct (charfield_1024 name) as [e|n] eqn:C;
    destruct (choicefield_reg_dir type) as [e'|t] eqn:T; try discriminate.
  intros H. injection H as <-.
  assert (Ht : t = type).
  { unfold choicefield_reg_dir in T. destruct (existsb _ _); [|discriminate].
    injection T as <-. reflexivity. }
  destruct (charfield_1024_inr _ _ C) as (-> & Hne & Hlen). subst t. auto.
Qed.

(** A listing the serializer accepts is the entries with their names
    stripped, each name non-empty, already stripped and at most 1024
    characters long. *)
Lemma file_info_list_validate_inr (data v : list (string * string)) :
  file_info_list_validate data = inr v ->
  v = map (fun '(name, type) => (py_strip name, type)) data /\
  Forall (fun '(name, _) =>
            name <> "" /\ py_strip name = name /\ (String.length name <= 1024)%nat) v.
Proof.
  unfold file_info_list_validate.
  destruct (forallb _ _) eqn:Hall; [|discriminate]. intros H. injection H as <-.
  induction data as [|[n t] data IH]; cbn [map forallb flat_map] in *;
    [split; [reflexivity | constructor]|].
  destruct (file_info_validate (n, t)) as [e|v] eqn:E; [discriminate|].
  apply andb_true_iff in Hall as [_ Hall].
  destruct (file_info_validate_inr n t v E) as (-> & Hne & Hlen).
  destruct (IH Hall) as [IH1 IH2]. cbn [app]. split; [rewrite IH1; reflexivity|].
  constructor; [|exact IH2]. split; [exact Hne|]. split; [apply py_strip_idem | exact Hlen].
Qed.

(** One item the serializer rejects makes the whole listing fail, and its
    errors are among those the [ValidationError] carries. *)
Lemma file_info_list_validate_inl (data : list (string * string)) (item : string * string)
    (e : list (string * list string)) :
  In item data -> file_info_validate item = inl e ->
  exists errors, file_info_list_validate data = inl errors /\ In e errors.
Proof.
  intros Hin He. unfold file_info_list_validate.
  assert (Hm : In (file_info_validate item) (map file_info_validate data))
    by (apply in_map, Hin).
  assert (Hf : forallb (fun r => match r with inr _ => true | inl _ => false end)
                 (map file_info_validate data) = false).
  { apply not_true_iff_false. intros Hall. rewrite forallb_forall in Hall.
    specialize (Hall _ Hm). rewrite He in Hall. discriminate. }
  rewrite Hf. eexists. split; [reflexivity|].
  apply in_map_iff. exists (inl e). split; [reflexivity|]. rewrite <- He. exact Hm.
Qed.

Lemma share_entries_in (content : list (string * entry_kind)) (name : string) (k : entry_kind) :
  In (name, k) content -> k <> KOther ->
  exists t, In (name, t) (share_entries content) /\ (t = "REG" \/ t = "DIR").
Proof.
  intros Hin Hk. unfold share_entries.
  destruct k; [exists "REG" | exists "DIR" | contradiction];
    (split; [apply in_flat_map; eexists; split; [exact Hin | simpl; auto] | auto]).
Qed.

(** With an absolute [SHARE_ROOT], a directory [share] lists passed both
    checks and is a normalized absolute path: one or two leading slashes
    and then components that are neither empty, nor [.], nor [..].  The
    listing holds the regular files and the directories [scandir] reports
    for it, in its order, with the names [FileInfoSerializer]'s [CharField]
    returns: stripped of surrounding whitespace, non-empty and at most 1024
    characters long. *)
Theorem share_lists_normalized (SHARE_ROOT cwd : string) (isdir : string -> bool)
    (scandir : string -> list (string * entry_kind)) (directory_param : option string)
    (d : string) (data : list (string * string))
    (Hroot : startswith SHARE_ROOT "/" = true)
    (H : share SHARE_ROOT cwd isdir scandir directory_param = ShareListed d data) :
  startswith d SHARE_ROOT = true /\ isdir d = true /\
  (exists n comps, (n = 1 \/ n = 2)%nat /\ d = slashes n ++ join_slash comps /\
     Forall (fun c => c <> "" /\ c <> "." /\ c <> ".." /\ has_slash c = false) comps) /\
  data = map (fun '(name, type) => (py_strip name, type)) (share_entries (scandir d)) /\
  Forall (fun '(name, _) =>
            name <> "" /\ py_strip name = name /\ (String.length name <= 1024)%nat) data.
Proof.
  unfold share in H. cbv zeta in H.
  set (x := path_join SHARE_ROOT (share_param directory_param)) in H.
  destruct (startswith (abspath cwd x) SHARE_ROOT && isdir (abspath cwd x)) eqn:E;
    [|discriminate].
  destruct (file_info_list_validate (share_entries (scandir (abspath cwd x)))) as [errs|v]
    eqn:V; [discriminate|].
  injection H as <- <-. apply andb_true_iff in E as [E1 E2].
  destruct (file_info_list_validate_inr _ _ V) as [V1 V2].
  split; [exact E1|]. split; [exact E2|]. split; [|split; [exact V1 | exact V2]].
  assert (Hx : startswith x "/" = true) by (apply path_join_absolute, Hroot).
  unfold abspath. rewrite Hx. apply normpath_absolute, Hx.
Qed.

Lemma share_lists_normalized_witness :
  [("notes.txt", "REG"); ("docs", "DIR")]
  = map (fun '(name, type) => (py_strip name, type))
        (share_entries [(" notes.txt ", KFile); ("docs", KDir); ("fifo", KOther)]).
Proof.
  exact (proj1 (proj2 (proj2 (proj2 (share_lists_normalized "/home/django/share" "/home/django"
    (fun d => String.eqb d "/home/django/share")
    (fun _ => [(" notes.txt ", KFile); ("docs", KDir); ("fifo", KOther)])
    None "/home/django/share" [("notes.txt", "REG"); ("docs", "DIR")]
    eq_refl eq_refl))))).
Defined.

(** A directory that passes both checks of [share] but holds a regular
    file or a directory whose name is blank once stripped cannot be listed
    at all: the serializer rejects the whole listing with a
    [ValidationError] (HTTP 400) carrying the blank-name error. *)
Theorem share_blank_entry_rejected (SHARE_ROOT cwd : string) (isdir : string -> bool)
    (scandir : string -> list (string * entry_kind)) (directory_param : option string)
    (name : string) (k : entry_kind)
    (Hguard : startswith (share_directory SHARE_ROOT cwd directory_param) SHARE_ROOT = true)
    (Hdir : isdir (share_directory SHARE_ROOT cwd directory_param) = true)
    (Hin : In (name, k) (scandir (share_directory SHARE_ROOT cwd directory_param)))
    (Hk : k <> KOther) (Hblank : py_strip name = "") :
  exists errors, share SHARE_ROOT cwd isdir scandir directory_param = ShareInvalid errors /\
    In [("name", ["This field may not be blank."])] errors.
Proof.
  unfold share. cbv zeta.
  change (abspath cwd (path_join SHARE_ROOT (share_param directory_param)))
    with (share_directory SHARE_ROOT cwd directory_param).
  rewrite Hguard, Hdir. cbn [andb].
  destruct (share_entries_in _ _ _ Hin Hk) as (t & Ht & Htype).
  assert (He : file_info_validate (name, t) = inl [("name", ["This field may not be blank."])]).
  { unfold file_info_validate, charfield_1024.
    replace (String.eqb (py_strip name) "") with true by (rewrite Hblank; reflexivity).
    rewrite orb_true_r. destruct Htype as [-> | ->]; reflexivity. }
  destruct (file_info_list_validate_inl _ _ _ Ht He) as (errs & E1 & E2).
  rewrite E1. eauto.
Qed.

Lemma share_blank_entry_rejected_witness :
  exists errors,
    share "/home/django/share" "/home/django" (fun _ => true)
      (fun _ => [("a.txt", KFile); (" ", KFile)]) None = ShareInvalid errors /\
    In [("name", ["This field may not be blank."])] errors.
Proof.
  apply (share_blank_entry_rejected "/home/django/share" "/home/django" (fun _ => true)
    (fun _ => [("a.txt", KFile); (" ", KFile)]) None " " KFile); try reflexivity.
  - right; left; reflexivity.
  - discriminate.
Defined.

(** ** Concrete runs of frame properties *)

Lemma export_annotations_frame_witness :
  w_queue (snd (export_annotations 3600 3600 ex_formats (fun _ => "") ex_task
                  "/api/tasks/7/dataset/CVAT 1.1" ex_request "CVAT 1.1" ""
                  "dm.views.export_task_as_dataset" ""
                  (ex_import_world "/api/project/1/dataset_import" Started None)))
    !! "/api/project/1/dataset_import"
  = Some (ex_import_job Started None).
Proof.
  exact (proj1 (export_annotations_frame 3600 3600 ex_formats (fun _ => "") ex_task
    "/api/tasks/7/dataset/CVAT 1.1" ex_request "CVAT 1.1" "" "dm.views.export_task_as_dataset" ""
    (ex_import_world "/api/project/1/dataset_import" Started None))
    "/api/project/1/dataset_import" ltac:(discriminate)).
Defined.

Lemma plugins_flags_witness :
  plugins (fun k => if String.eqb k "CVAT_ANALYTICS" then Some "maybe" else None)
    (fun _ => true) = inl ValueError.
Proof.
  apply (proj2 (proj2 (plugins_flags
    (fun k => if String.eqb k "CVAT_ANALYTICS" then Some "maybe" else None) (fun _ => true)))).
  exists "CVAT_ANALYTICS", "maybe". split; [left; reflexivity|].
  split; [reflexivity|]. split; simpl; intuition discriminate.
Defined.

Lemma server_log_records_witness :
  exists d, snd (logs "alice" [{[ "job_id" := PInt 4; "username" := PStr "mallory" ]}]) !! 0%nat
            = Some (JobLogger (PInt 4), LInfo, d) /\ d !! "username" = Some (PStr "alice").
Proof.
  destruct (proj1 (proj2 (proj2 (proj2 (server_log_records "alice"
    [{[ "job_id" := PInt 4; "username" := PStr "mallory" ]}] ∅))))
    0%nat {[ "job_id" := PInt 4; "username" := PStr "mallory" ]} eq_refl)
    as (d & Hd & Hu & _).
  exists d. split; [exact Hd | exact Hu].
Defined.

Lemma cloud_queryset_filter_witness :
  cloud_get_queryset ["AWS_S3_BUCKET"; "AZURE_CONTAINER"] (fun l => l) "list" (Some "FTP")
    [mkStorage 1 "AWS_S3_BUCKET"]
  = inl (ValidationError "Unsupported type of cloud provider").
Proof.
  apply (proj2 (cloud_queryset_filter ["AWS_S3_BUCKET"; "AZURE_CONTAINER"] (fun l => l) "list"
    (Some "FTP") [mkStorage 1 "AWS_S3_BUCKET"])).
  simpl. intuition discriminate.
Defined.

(** ** Export round trip *)




(** ** A failure the worker reports, as the status views relay it *)

(** When the job stored under [id] raises, the worker's [rq_handler] stores
    the formatted exception, and both [_get_rq_response] helpers then
    report the job as "Failed" with exactly that text as message. *)
Theorem worker_fail_relayed (id : string) (fm : list string) (w : world) (j : job)
    (Hj : w_queue w !! id = Some j) :
  project_get_rq_response (w_queue (worker_fail id fm w)) id
  = [("state", PStr "Failed"); ("message", PStr (String.concat "" fm))] /\
  task_get_rq_response (w_queue (worker_fail id fm w)) id
  = [("state", PStr "Failed"); ("message", PStr (String.concat "" fm))].
Proof.
  unfold worker_fail. rewrite Hj. simpl. rewrite rq_handler_queue.
  unfold project_get_rq_response, task_get_rq_response, fetch_job.
  rewrite lookup_insert_eq. split; reflexivity.
Qed.

Lemma worker_fail_relayed_witness :
  task_get_rq_response
    (w_queue (worker_fail "/api/tasks/7" ["ValueError: bad video\n"]
                (ex_import_world "/api/tasks/7" Started None))) "/api/tasks/7"
  = [("state", PStr "Failed"); ("message", PStr "ValueError: bad video\n")].
Proof.
  exact (proj2 (worker_fail_relayed "/api/tasks/7" ["ValueError: bad video\n"]
    (ex_import_world "/api/tasks/7" Started None) (ex_import_job Started None) eq_refl)).
Defined.
